(** * Salt plugin modules: state functions, CIMC execution module, Mattermost

    A shallow embedding of

      - [salt/states/mssql_database.py]  ([_normalize_options], [present], [absent])
      - [salt/states/blockdev.py]        ([tuned], [formatted], [_checkblk])
      - [salt/modules/cimc.py]           ([__virtual__], [get_hostname] and the
                                          twelve functions that modify the
                                          configuration)
      - [salt/modules/mattermost.py]     ([post_message] and its [_get_*] helpers)

    Python values are an inductive type [pyval]; a function of the source is
    a program in a free monad [prog] whose nodes are the calls the source
    makes to the host ([__salt__], [__proxy__], [os.path], [time], [log],
    [salt.utils.*]).  A program is run against an arbitrary host, given as a
    world type and a handler; [run] returns the outcome (a value or a raised
    exception), the list of calls issued, and the final world.

    Conventions of the model:
      - strings are byte strings; dictionary keys are strings and a
        dictionary is an association list in insertion order;
      - a host call answers with a value (a host call that raises is not
        modelled: no function of the source catches around one);
      - [repr] of a list or dictionary and [salt.utils.json.dumps] are
        parameters of the development. *)

From Stdlib Require Import String Ascii List ZArith Bool Lia DecimalString.
From ExtLib Require Import Structures.Monad.
Import ListNotations.
Import MonadNotation.
Local Open Scope string_scope.
Local Open Scope monad_scope.
Set Warnings "-register-all".

(** ** Python values *)

Inductive pyval : Type :=
| PyNone
| PyBool (b : bool)
| PyInt (z : Z)
| PyStr (s : string)
| PyList (l : list pyval)
| PyDict (d : list (string * pyval)).

Definition dict := list (string * pyval).

Inductive exn : Type :=
| TypeError
| KeyError
| IndexError
| CommandExecutionError (msg : string)
| SaltInvocationError (msg : string).

(** [bool(v)] *)
Definition truthy (v : pyval) : bool :=
  match v with
  | PyNone => false
  | PyBool b => b
  | PyInt z => negb (z =? 0)%Z
  | PyStr s => negb (s =? "")
  | PyList l => match l with [] => false | _ => true end
  | PyDict d => match d with [] => false | _ => true end
  end.

(** [d.get(k)] on an association list with unique keys *)
Fixpoint dict_get (k : string) (d : dict) : option pyval :=
  match d with
  | [] => None
  | (k', v) :: d' => if k' =? k then Some v else dict_get k d'
  end.

(** [d[k] = v]: replaces in place, or appends *)
Fixpoint dict_set (k : string) (v : pyval) (d : dict) : dict :=
  match d with
  | [] => [(k, v)]
  | (k', v') :: d' => if k' =? k then (k', v) :: d' else (k', v') :: dict_set k v d'
  end.

Definition dict_has (k : string) (d : dict) : bool :=
  match dict_get k d with Some _ => true | None => false end.

(** [a == b] *)
Fixpoint py_eq (a b : pyval) {struct a} : bool :=
  match a, b with
  | PyNone, PyNone => true
  | PyBool x, PyBool y => Bool.eqb x y
  | PyBool x, PyInt y => (Z.b2z x =? y)%Z
  | PyInt x, PyBool y => (x =? Z.b2z y)%Z
  | PyInt x, PyInt y => (x =? y)%Z
  | PyStr x, PyStr y => (x =? y)
  | PyList x, PyList y =>
      (fix go (l1 l2 : list pyval) {struct l1} : bool :=
         match l1, l2 with
         | [], [] => true
         | u :: l1', v :: l2' => py_eq u v && go l1' l2'
         | _, _ => false
         end) x y
  | PyDict x, PyDict y =>
      (length x =? length y)%nat &&
      (fix all (d : list (string * pyval)) {struct d} : bool :=
         match d with
         | [] => true
         | (k, u) :: d' =>
             match dict_get k y with
             | Some v => py_eq u v && all d'
             | None => false
             end
         end) x
  | _, _ => false
  end.

(** [str(z)] for an integer *)
Definition str_of_Z (z : Z) : string := NilZero.string_of_int (Z.to_int z).

(** [o[i]]: subscription.  A negative list index counts from the end; a
    boolean index is the integer 0 or 1. *)
Definition as_index (i : pyval) : option Z :=
  match i with
  | PyInt z => Some z
  | PyBool b => Some (Z.b2z b)
  | _ => None
  end.

Definition seq_index (len : nat) (z : Z) : option nat :=
  let n := Z.of_nat len in
  if (0 <=? z)%Z && (z <? n)%Z then Some (Z.to_nat z)
  else if (z <? 0)%Z && (0 <=? z + n)%Z then Some (Z.to_nat (z + n))
  else None.

Definition py_getitem (o i : pyval) : exn + pyval :=
  match o with
  | PyDict d =>
      match i with
      | PyStr k => match dict_get k d with Some v => inr v | None => inl KeyError end
      | PyList _ | PyDict _ => inl TypeError
      | _ => inl KeyError
      end
  | PyList l =>
      match as_index i with
      | Some z =>
          match seq_index (length l) z with
          | Some n => match nth_error l n with Some v => inr v | None => inl IndexError end
          | None => inl IndexError
          end
      | None => inl TypeError
      end
  | PyStr s =>
      match as_index i with
      | Some z =>
          match seq_index (String.length s) z with
          | Some n =>
              match String.get n s with
              | Some c => inr (PyStr (String c EmptyString))
              | None => inl IndexError
              end
          | None => inl IndexError
          end
      | None => inl TypeError
      end
  | _ => inl TypeError
  end.

(** ** Host calls and programs *)

Inductive call : Type :=
| Salt (fn : string) (args : list pyval) (kwargs : dict)
| Proxy (fn : string) (args : list pyval)
| OsPathExists (path : string)
| Which (exe : string)
| Sleep (secs : Z)
| Log (level : string) (fmt : string) (args : list pyval)
| MattermostQuery (api_url hook : pyval) (data : string).

Inductive prog (A : Type) : Type :=
| Ret (a : A)
| Raise (e : exn)
| Do (c : call) (k : pyval -> prog A).

Arguments Ret {A} a.
Arguments Raise {A} e.
Arguments Do {A} c k.

Fixpoint prog_bind {A B : Type} (p : prog A) (f : A -> prog B) : prog B :=
  match p with
  | Ret a => f a
  | Raise e => Raise e
  | Do c k => Do c (fun v => prog_bind (k v) f)
  end.

#[export] Instance Monad_prog : Monad prog :=
  {| ret := @Ret; bind := @prog_bind |}.

(** one host call, returning its answer *)
Definition host (c : call) : prog pyval := Do c Ret.

(** lifting a fallible pure computation *)
Definition lift {A : Type} (r : exn + A) : prog A :=
  match r with inl e => Raise e | inr a => Ret a end.

(** [try: p except Exception: return v] *)
Definition try_except {A : Type} (r : exn + A) (fallback : A) : A :=
  match r with inl _ => fallback | inr a => a end.

Inductive outcome (A : Type) : Type :=
| Returned (a : A)
| Raised (e : exn).

Arguments Returned {A} a.
Arguments Raised {A} e.

(** ** Strings of the source *)

Definition dq : string := String (ascii_of_nat 34) EmptyString.
Definition nl : string := String (ascii_of_nat 10) EmptyString.
Definition quoted (s : string) : string := dq ++ s ++ dq.

(** [needle in s] for strings *)
Fixpoint contains (needle s : string) : bool :=
  if prefix needle s then true
  else match s with
       | EmptyString => false
       | String _ s' => contains needle s'
       end.

(** ** The environment a module is loaded in

    [opts_test] is [__opts__["test"]]; [salt_file_is_blkdev] is the truth
    value of the registry entry [__salt__["file.is_blkdev"]] itself, which
    [tuned] tests without calling it (any function object is true). *)

Record host_env : Type := {
  opts_test : pyval;
  salt_file_is_blkdev : bool
}.

(** The dictionary every state function returns. [result] is [Some true],
    [Some false] or [None] for Python's [True], [False] and [None]. *)

Record state_ret : Type := mk_ret {
  name : string;
  result : option bool;
  comment : string;
  changes : dict
}.

Inductive state_fn : Type :=
| Tuned (name : string) (kwargs : dict)
| Formatted (name fs_type : string) (force : pyval) (kwargs : dict)
| Present (name : string) (containment options : pyval) (kwargs : dict)
| Absent (name : string) (kwargs : dict).

(** the execution functions that change the managed system *)
Definition is_apply (c : call) : bool :=
  match c with
  | Salt fn _ _ =>
      existsb (String.eqb fn)
        ["disk.tune"; "disk.format"; "mssql.db_create"; "mssql.db_remove"]
  | _ => false
  end.

(** the calls that only observe the managed system *)
Definition is_read (c : call) : bool :=
  match c with
  | Salt fn _ _ => existsb (String.eqb fn) ["mssql.db_exists"; "cmd.run"]
  | OsPathExists _ => true
  | _ => false
  end.

Definition is_query (c : call) : bool :=
  match c with MattermostQuery _ _ _ => true | _ => false end.

Definition is_str (v : pyval) : bool :=
  match v with PyStr _ => true | _ => false end.

Definition is_dict (v : pyval) : bool :=
  match v with PyDict _ => true | _ => false end.

(** [a + b] when [a] is a string *)
Definition str_add (a : string) (b : pyval) : exn + string :=
  match b with
  | PyStr s => inr (a ++ s)
  | _ => inl TypeError
  end.

Fixpoint assoc (k : string) (m : list (string * string)) : option string :=
  match m with
  | [] => None
  | (k', v) :: m' => if k' =? k then Some v else assoc k m'
  end.

(** ** Hosts to run the programs against

    [static answers] answers every call from a fixed table and has no state;
    [scripted] answers the calls in turn from a list, and with [None] once
    the list is used up. *)

Definition static (answers : call -> pyval) (c : call) (w : unit)
    : pyval * unit := (answers c, w).

Definition scripted (c : call) (w : list pyval) : pyval * list pyval :=
  match w with
  | [] => (PyNone, [])
  | v :: w' => (v, w')
  end.

Definition plain_repr (v : pyval) : string := "<container>".

Definition plain_json (d : dict) : string :=
  "{" ++ String.concat ", " (map fst d) ++ "}".

(** a server on which every database exists *)
Definition database_exists (c : call) : pyval :=
  match c with
  | Salt fn _ _ => if fn =? "mssql.db_exists" then PyBool true else PyNone
  | _ => PyNone
  end.

(** a server with no database, on which none can be created *)
Definition no_database (c : call) : pyval := PyNone.

(** a minion configured with a hook and an API URL only *)
Definition hook_and_url (key : string) : pyval :=
  if key =? "mattermost.hook" then PyStr "peWcBiMOS9HrZG15"
  else if key =? "mattermost:api_url" then PyStr "https://example.com"
  else PyNone.

Definition minion_config (c : call) : pyval :=
  match c with
  | Salt fn [PyStr key] [] =>
      if fn =? "config.get" then hook_and_url key else PyNone
  | MattermostQuery _ _ _ => PyBool true
  | _ => PyNone
  end.

Definition applying : host_env :=
  {| opts_test := PyBool false; salt_file_is_blkdev := true |}.

Definition dry_run : host_env :=
  {| opts_test := PyBool true; salt_file_is_blkdev := true |}.

(** an [xfs] device on a system without any [mkfs] program *)
Definition xfs_without_mkfs (c : call) : pyval :=
  match c with
  | OsPathExists _ => PyBool true
  | Salt fn _ _ => if fn =? "cmd.run" then PyStr "xfs" else PyNone
  | _ => PyNone
  end.

(** a device on which [blkid] never reports a file system *)
Definition blank_device (c : call) : pyval :=
  match c with
  | OsPathExists _ => PyBool true
  | Which exe => PyStr ("/sbin/" ++ exe)
  | _ => PyNone
  end.

Section Modules.

Set Default Proof Using "Type".

(** [repr] of a list or of a dictionary, and [salt.utils.json.dumps] *)
Variable repr_container : pyval -> string.
Variable json_dumps : dict -> string.

(** [str(v)], as [format] and f-strings apply it *)
Definition py_str (v : pyval) : string :=
  match v with
  | PyNone => "None"
  | PyBool true => "True"
  | PyBool false => "False"
  | PyInt z => str_of_Z z
  | PyStr s => s
  | PyList _ | PyDict _ => repr_container v
  end.

(** *** salt/states/mssql_database.py *)

Fixpoint _normalize_options (options : pyval) : list pyval :=
  match options with
  | PyDict d => map (fun kv => PyStr (fst kv ++ "=" ++ py_str (snd kv))) d
  | PyList l =>
      match l with
      | [] => l
      | PyStr _ :: _ => l
      | PyDict _ :: _ => flat_map _normalize_options l
      | _ :: _ => []
      end
  | _ => []
  end.

Definition present (h : host_env) (name : string) (containment options : pyval)
    (kwargs : dict) : prog state_ret :=
  db_exists <- host (Salt "mssql.db_exists" [PyStr name] kwargs) ;;
  if truthy db_exists then
    Ret (mk_ret name (Some true)
           ("Database " ++ name
              ++ " is already present (Not going to try to set its options)") [])
  else if truthy (opts_test h) then
    Ret (mk_ret name None ("Database " ++ name ++ " is set to be added") [])
  else if dict_has "new_database_options" kwargs then
    (* a keyword given twice: explicitly and through ** *)
    Raise TypeError
  else
    db_created <- host (Salt "mssql.db_create" [PyStr name]
                          (("containment", containment)
                           :: ("new_database_options",
                               PyList (_normalize_options options))
                           :: kwargs)) ;;
    match db_created with
    | PyBool true =>
        Ret (mk_ret name (Some true) ("Database " ++ name ++ " has been added")
               [(name, PyStr "Present")])
    | _ =>
        Ret (mk_ret name (Some false)
               ("Database " ++ name ++ " failed to be created: "
                  ++ py_str db_created) [])
    end.

Definition absent (h : host_env) (name : string) (kwargs : dict)
    : prog state_ret :=
  db_exists <- host (Salt "mssql.db_exists" [PyStr name] []) ;;
  if negb (truthy db_exists) then
    Ret (mk_ret name (Some true) ("Database " ++ name ++ " is not present") [])
  else if truthy (opts_test h) then
    Ret (mk_ret name None ("Database " ++ name ++ " is set to be removed") [])
  else
    removed <- host (Salt "mssql.db_remove" [PyStr name] kwargs) ;;
    if truthy removed then
      Ret (mk_ret name (Some true) ("Database " ++ name ++ " has been removed")
             [(name, PyStr "Absent")])
    else
      Ret (mk_ret name (Some false)
             ("Database " ++ name ++ " failed to be removed") []).

(** *** salt/states/blockdev.py *)

Definition kwarg_map : list (string * string) :=
  [("read-ahead", "getra");
   ("filesystem-read-ahead", "getfra");
   ("read-only", "getro");
   ("read-write", "getro")].

(** the old and new values the report shows for one option *)
Definition tuned_report (key : string) (declared cur new : pyval)
    : pyval * pyval :=
  let '(old, new) :=
    match declared with
    | PyBool _ => (PyBool (py_eq cur (PyStr "1")), PyBool (py_eq new (PyStr "1")))
    | _ => (cur, new)
    end in
  if key =? "read-write"
  then (PyBool (negb (truthy old)), PyBool (negb (truthy new)))
  else (old, new).

(** one turn of the loop [for key in kwargs] *)
Definition tuned_key (current changes : pyval) (key : string) (declared : pyval)
    (changeset : dict) : exn + dict :=
  match assoc key kwarg_map with
  | None => inr changeset
  | Some switch =>
      match py_getitem current (PyStr switch) with
      | inl e => inl e
      | inr cur =>
          match py_getitem changes (PyStr switch) with
          | inl e => inl e
          | inr new =>
              if negb (py_eq cur new) then
                let '(old, new) := tuned_report key declared cur new in
                inr (dict_set key
                       (PyStr ("Changed from " ++ py_str old ++ " to "
                                 ++ py_str new)) changeset)
              else inr changeset
          end
      end
  end.

Fixpoint tuned_loop (current changes : pyval) (kwargs : dict) (changeset : dict)
    : exn + dict :=
  match kwargs with
  | [] => inr changeset
  | (key, declared) :: rest =>
      match tuned_key current changes key declared changeset with
      | inl e => inl e
      | inr changeset' => tuned_loop current changes rest changeset'
      end
  end.

Definition tuned (h : host_env) (name : string) (kwargs : dict)
    : prog state_ret :=
  if negb (salt_file_is_blkdev h) then
    Ret (mk_ret name (Some true)
           ("Changes to " ++ name ++ " cannot be applied. Not a block device. ")
           [])
  else if truthy (opts_test h) then
    Ret (mk_ret name None ("Changes to " ++ name ++ " will be applied ") [])
  else
    current <- host (Salt "disk.dump" [PyStr name] []) ;;
    changes <- host (Salt "disk.tune" [PyStr name] kwargs) ;;
    changeset <- lift (tuned_loop current changes kwargs []) ;;
    if truthy changes then
      match changeset with
      | _ :: _ =>
          Ret (mk_ret name (Some true)
                 ("Block device " ++ name ++ " successfully modified ")
                 changeset)
      | [] =>
          Ret (mk_ret name (Some true)
                 ("Block device " ++ name ++ " already in correct state") [])
      end
    else
      Ret (mk_ret name (Some false)
             ("Failed to modify block device " ++ name) []).

Definition _checkblk (name : string) : prog pyval :=
  blk <- host (Salt "cmd.run"
                 [PyList [PyStr "blkid"; PyStr "-o"; PyStr "value"; PyStr "-s";
                          PyStr "TYPE"; PyStr name]]
                 [("ignore_retcode", PyBool true)]) ;;
  Ret (if negb (truthy blk) then PyStr "" else blk).

(** the loop [for i in range(10)], with [attempts] turns left and [i] the
    current index *)
Fixpoint formatted_poll (attempts : nat) (i : Z) (name fs_type : string)
    : prog state_ret :=
  match attempts with
  | O => Ret (mk_ret name (Some false) ("Failed to format " ++ name) [])
  | S attempts' =>
      host (Log "info" "Check blk fstype attempt %d of 10" [PyInt (i + 1)]) ;;
      current_fs <- _checkblk name ;;
      if py_eq current_fs (PyStr fs_type) then
        Ret (mk_ret name (Some true)
               (name ++ " has been formatted with " ++ fs_type)
               [("new", PyStr fs_type); ("old", current_fs)])
      else if py_eq current_fs (PyStr "") then
        host (Log "info" "Waiting 3s before next check" []) ;;
        host (Sleep 3) ;;
        formatted_poll attempts' (i + 1) name fs_type
      else
        Ret (mk_ret name (Some false) ("Failed to format " ++ name) [])
  end.

Definition formatted (h : host_env) (name fs_type : string) (force : pyval)
    (kwargs : dict) : prog state_ret :=
  path_exists <- host (OsPathExists name) ;;
  if negb (truthy path_exists) then
    Ret (mk_ret name (Some false) (name ++ " does not exist") [])
  else
    current_fs <- _checkblk name ;;
    if py_eq current_fs (PyStr fs_type) then
      Ret (mk_ret name (Some true)
             (name ++ " already formatted with " ++ fs_type) [])
    else
      mkfs <- host (Which ("mkfs." ++ fs_type)) ;;
      if negb (truthy mkfs) then
        Ret (mk_ret name (Some false) ("Invalid fs_type: " ++ fs_type) [])
      else if truthy (opts_test h) then
        Ret (mk_ret name None ("Changes to " ++ name ++ " will be applied ") [])
      else
        host (Salt "disk.format" [PyStr name; PyStr fs_type]
                (("force", force) :: kwargs)) ;;
        formatted_poll 10 0 name fs_type.

Definition call_state (h : host_env) (f : state_fn) : prog state_ret :=
  match f with
  | Tuned name kwargs => tuned h name kwargs
  | Formatted name fs_type force kwargs => formatted h name fs_type force kwargs
  | Present name containment options kwargs =>
      present h name containment options kwargs
  | Absent name kwargs => absent h name kwargs
  end.

(** *** salt/modules/cimc.py *)

Definition activate_backup_image (reset : pyval) : prog pyval :=
  let dn := "sys/rack-unit-1/mgmt/fw-boot-def/bootunit-combined" in
  let r := match reset with PyBool true => "yes" | _ => "no" end in
  let inconfig :=
    "<firmwareBootUnit dn='sys/rack-unit-1/mgmt/fw-boot-def/bootunit-combined'"
      ++ nl ++ "    adminState='trigger' image='backup' resetOnActivate='"
      ++ r ++ "' />" in
  host (Proxy "cimc.set_config_modify" [PyStr dn; PyStr inconfig; PyBool false]).

Definition create_user (uid username password priv : pyval) : prog pyval :=
  if negb (truthy uid) then
    Raise (CommandExecutionError "The user ID must be specified.")
  else if negb (truthy username) then
    Raise (CommandExecutionError "The username must be specified.")
  else if negb (truthy password) then
    Raise (CommandExecutionError "The password must be specified.")
  else if negb (truthy priv) then
    Raise (CommandExecutionError "The privilege level must be specified.")
  else
    let dn := "sys/user-ext/user-" ++ py_str uid in
    let inconfig :=
      "<aaaUser id=" ++ quoted (py_str uid)
        ++ " accountStatus=" ++ quoted "active"
        ++ " name=" ++ quoted (py_str username)
        ++ " priv=" ++ quoted (py_str priv) ++ nl
        ++ "    pwd=" ++ quoted (py_str password)
        ++ "  dn=" ++ quoted ("sys/user-ext/user-" ++ py_str uid) ++ "/>" in
    host (Proxy "cimc.set_config_modify"
            [PyStr dn; PyStr inconfig; PyBool false]).

Definition get_hostname : prog pyval :=
  r <- host (Proxy "cimc.get_config_resolver_class"
               [PyStr "mgmtIf"; PyBool true]) ;;
  Ret (try_except
         (match py_getitem r (PyStr "outConfigs") with
          | inl e => inl e
          | inr a =>
              match py_getitem a (PyStr "mgmtIf") with
              | inl e => inl e
              | inr b =>
                  match py_getitem b (PyInt 0) with
                  | inl e => inl e
                  | inr c => py_getitem c (PyStr "hostname")
                  end
              end
          end)
         (PyStr "Unable to retrieve hostname")).

Definition logging_options : list string :=
  ["emergency"; "alert"; "critical"; "error"; "warning"; "notice";
   "informational"; "debug"].

(** [v in options] for a list of strings *)
Definition py_in (v : pyval) (options : list string) : bool :=
  existsb (fun o => py_eq v (PyStr o)) options.

Definition set_logging_levels (remote local : pyval) : prog pyval :=
  let query := "" in
  query <- (if truthy remote then
              if py_in remote logging_options then
                Ret (query ++ " remoteSeverity=" ++ quoted (py_str remote))
              else
                Raise (CommandExecutionError
                         "Remote Severity option is not valid.")
            else Ret query) ;;
  query <- (if truthy local then
              if py_in local logging_options then
                Ret (query ++ " localSeverity=" ++ quoted (py_str local))
              else
                Raise (CommandExecutionError
                         "Local Severity option is not valid.")
            else Ret query) ;;
  let dn := "sys/svc-ext/syslog" in
  let inconfig :=
    "<commSyslog dn=" ++ quoted "sys/svc-ext/syslog" ++ query
      ++ " ></commSyslog>" in
  host (Proxy "cimc.set_config_modify" [PyStr dn; PyStr inconfig; PyBool false]).

(** the other functions of [cimc.py] that modify the configuration *)

Definition mount_share
    (name remote_share remote_file mount_type username password : pyval)
    : prog pyval :=
  if negb (truthy name) then
    Raise (CommandExecutionError "The share name must be specified.")
  else if negb (truthy remote_share) then
    Raise (CommandExecutionError "The remote share path must be specified.")
  else if negb (truthy remote_file) then
    Raise (CommandExecutionError "The remote file name must be specified.")
  else
    let mount_options :=
      if truthy username && truthy password then
        " mountOptions='username=" ++ py_str username ++ ",password="
          ++ py_str password ++ "'"
      else "" in
    let dn := "sys/svc-ext/vmedia-svc/vmmap-" ++ py_str name in
    let inconfig :=
      "<commVMediaMap dn='sys/svc-ext/vmedia-svc/vmmap-" ++ py_str name
        ++ "' map='" ++ py_str mount_type ++ "'" ++ mount_options ++ nl
        ++ "    remoteFile='" ++ py_str remote_file
        ++ "' remoteShare='" ++ py_str remote_share ++ "' status='created'"
        ++ nl ++ "    volumeName='Win12' />" in
    host (Proxy "cimc.set_config_modify"
            [PyStr dn; PyStr inconfig; PyBool false]).

Definition reboot : prog pyval :=
  let dn := "sys/rack-unit-1" in
  let inconfig :=
    "<computeRackUnit adminPower=" ++ quoted "cycle-immediate"
      ++ " dn=" ++ quoted "sys/rack-unit-1" ++ "></computeRackUnit>" in
  host (Proxy "cimc.set_config_modify" [PyStr dn; PyStr inconfig; PyBool false]).

Definition set_hostname (hostname : pyval) : prog pyval :=
  if negb (truthy hostname) then
    Raise (CommandExecutionError "Hostname option must be provided.")
  else
    let dn := "sys/rack-unit-1/mgmt/if-1" in
    let inconfig :=
      "<mgmtIf dn=" ++ quoted "sys/rack-unit-1/mgmt/if-1"
        ++ " hostname=" ++ quoted (py_str hostname) ++ " ></mgmtIf>" in
    r <- host (Proxy "cimc.set_config_modify"
                 [PyStr dn; PyStr inconfig; PyBool false]) ;;
    Ret (try_except
           (match py_getitem r (PyStr "outConfig") with
            | inl e => inl e
            | inr a =>
                match py_getitem a (PyStr "mgmtIf") with
                | inl e => inl e
                | inr b =>
                    match py_getitem b (PyInt 0) with
                    | inl e => inl e
                    | inr c =>
                        match py_getitem c (PyStr "status") with
                        | inl e => inl e
                        | inr status =>
                            if py_eq status (PyStr "modified")
                            then inr (PyBool true) else inr (PyBool false)
                        end
                    end
                end
            end)
           (PyBool false)).

Definition set_ntp_server (server1 server2 server3 server4 : pyval)
    : prog pyval :=
  let dn := "sys/svc-ext/ntp-svc" in
  let inconfig :=
    "<commNtpProvider dn=" ++ quoted "sys/svc-ext/ntp-svc"
      ++ " ntpEnable=" ++ quoted "yes"
      ++ " ntpServer1=" ++ quoted (py_str server1)
      ++ " ntpServer2=" ++ quoted (py_str server2) ++ nl
      ++ "    ntpServer3=" ++ quoted (py_str server3)
      ++ " ntpServer4=" ++ quoted (py_str server4) ++ "/>" in
  host (Proxy "cimc.set_config_modify" [PyStr dn; PyStr inconfig; PyBool false]).

Definition set_power_configuration (policy delayType delayValue : pyval)
    : prog pyval :=
  query <-
    (if py_eq policy (PyStr "reset") then
       let query := " vpResumeOnACPowerLoss=" ++ quoted "reset" in
       if truthy delayType then
         if py_eq delayType (PyStr "fixed") then
           let query := query ++ " delayType=" ++ quoted "fixed" in
           if truthy delayValue
           then Ret (query ++ " delay=" ++ quoted (py_str delayValue))
           else Ret query
         else if py_eq delayType (PyStr "random") then
           Ret (query ++ " delayType=" ++ quoted "random")
         else
           Raise (CommandExecutionError "Invalid delay type entered.")
       else Ret query
     else if py_eq policy (PyStr "stay-off") then
       Ret (" vpResumeOnACPowerLoss=" ++ quoted "reset")
     else if py_eq policy (PyStr "last-state") then
       Ret (" vpResumeOnACPowerLoss=" ++ quoted "last-state")
     else
       Raise (CommandExecutionError "The power state must be specified.")) ;;
  let dn := "sys/rack-unit-1/board/Resume-on-AC-power-loss" in
  let inconfig :=
    "<biosVfResumeOnACPowerLoss" ++ nl
      ++ "    dn=" ++ quoted "sys/rack-unit-1/board/Resume-on-AC-power-loss"
      ++ query ++ ">" ++ nl ++ "    </biosVfResumeOnACPowerLoss>" in
  host (Proxy "cimc.set_config_modify" [PyStr dn; PyStr inconfig; PyBool false]).

Definition set_syslog_server (server type : pyval) : prog pyval :=
  if negb (truthy server) then
    Raise (CommandExecutionError "The SYSLOG server must be specified.")
  else
    target <-
      (if py_eq type (PyStr "primary") then
         Ret ("sys/svc-ext/syslog/client-primary",
              "<commSyslogClient name='primary' adminState='enabled'  hostname='"
                ++ py_str server ++ "'" ++ nl
                ++ "        dn='sys/svc-ext/syslog/client-primary'> </commSyslogClient>")
       else if py_eq type (PyStr "secondary") then
         Ret ("sys/svc-ext/syslog/client-secondary",
              "<commSyslogClient name='secondary' adminState='enabled'  hostname='"
                ++ py_str server ++ "'" ++ nl
                ++ "        dn='sys/svc-ext/syslog/client-secondary'> </commSyslogClient>")
       else
         Raise (CommandExecutionError
                  "The SYSLOG type must be either primary or secondary.")) ;;
    let '(dn, inconfig) := target in
    host (Proxy "cimc.set_config_modify"
            [PyStr dn; PyStr inconfig; PyBool false]).

Definition set_user (uid username password priv status : pyval)
    : prog pyval :=
  let conf := "" in
  if negb (truthy uid) then
    Raise (CommandExecutionError "The user ID must be specified.")
  else
    let conf :=
      if truthy status
      then conf ++ " accountStatus=" ++ quoted (py_str status) else conf in
    let conf :=
      if truthy username
      then conf ++ " name=" ++ quoted (py_str username) else conf in
    let conf :=
      if truthy priv then conf ++ " priv=" ++ quoted (py_str priv) else conf in
    let conf :=
      if truthy password
      then conf ++ " pwd=" ++ quoted (py_str password) else conf in
    let dn := "sys/user-ext/user-" ++ py_str uid in
    let inconfig :=
      "<aaaUser id=" ++ quoted (py_str uid) ++ conf
        ++ " dn=" ++ quoted ("sys/user-ext/user-" ++ py_str uid) ++ "/>" in
    host (Proxy "cimc.set_config_modify"
            [PyStr dn; PyStr inconfig; PyBool false]).

Definition tftp_update_bios (server path : pyval) : prog pyval :=
  if negb (truthy server) then
    Raise (CommandExecutionError "The server name must be specified.")
  else if negb (truthy path) then
    Raise (CommandExecutionError "The TFTP path must be specified.")
  else
    let dn := "sys/rack-unit-1/bios/fw-updatable" in
    let inconfig :=
      "<firmwareUpdatable adminState='trigger' dn='sys/rack-unit-1/bios/fw-updatable'"
        ++ nl ++ "    protocol='tftp' remoteServer='" ++ py_str server
        ++ "' remotePath='" ++ py_str path ++ "'" ++ nl
        ++ "    type='blade-bios' />" in
    host (Proxy "cimc.set_config_modify"
            [PyStr dn; PyStr inconfig; PyBool false]).

Definition tftp_update_cimc (server path : pyval) : prog pyval :=
  if negb (truthy server) then
    Raise (CommandExecutionError "The server name must be specified.")
  else if negb (truthy path) then
    Raise (CommandExecutionError "The TFTP path must be specified.")
  else
    let dn := "sys/rack-unit-1/mgmt/fw-updatable" in
    let inconfig :=
      "<firmwareUpdatable adminState='trigger' dn='sys/rack-unit-1/mgmt/fw-updatable'"
        ++ nl ++ "    protocol='tftp' remoteServer='" ++ py_str server
        ++ "' remotePath='" ++ py_str path ++ "'" ++ nl
        ++ "    type='blade-controller' />" in
    host (Proxy "cimc.set_config_modify"
            [PyStr dn; PyStr inconfig; PyBool false]).

(** [cimc.__virtual__].  [is_proxy] is the answer of
    [salt.utils.platform.is_proxy()], [opts] the dictionary [__opts__];
    the function returns the virtual name, or [False] with a reason.  Only
    [KeyError] is caught. *)
Definition cimc__virtual__ (is_proxy : bool) (opts : pyval)
    : exn + (string + string) :=
  let not_loaded :=
    inr (inr "The cimc execution module can only be loaded for cimc proxy minions.")
  in
  if is_proxy then
    match py_getitem opts (PyStr "proxy") with
    | inl KeyError => not_loaded
    | inl e => inl e
    | inr proxy =>
        match py_getitem proxy (PyStr "proxytype") with
        | inl KeyError => not_loaded
        | inl e => inl e
        | inr proxytype =>
            if py_eq proxytype (PyStr "cimc") then inr (inl "cimc")
            else not_loaded
        end
    end
  else not_loaded.

(** the functions of [cimc.py] that modify the configuration, as one type *)
Inductive cimc_setter : Type :=
| ActivateBackupImage (reset : pyval)
| CreateUser (uid username password priv : pyval)
| MountShare (name remote_share remote_file mount_type username password : pyval)
| Reboot
| SetHostname (hostname : pyval)
| SetLoggingLevels (remote local : pyval)
| SetNtpServer (server1 server2 server3 server4 : pyval)
| SetPowerConfiguration (policy delayType delayValue : pyval)
| SetSyslogServer (server type : pyval)
| SetUser (uid username password priv status : pyval)
| TftpUpdateBios (server path : pyval)
| TftpUpdateCimc (server path : pyval).

Definition call_setter (s : cimc_setter) : prog pyval :=
  match s with
  | ActivateBackupImage reset => activate_backup_image reset
  | CreateUser uid username password priv =>
      create_user uid username password priv
  | MountShare name remote_share remote_file mount_type username password =>
      mount_share name remote_share remote_file mount_type username password
  | Reboot => reboot
  | SetHostname hostname => set_hostname hostname
  | SetLoggingLevels remote local => set_logging_levels remote local
  | SetNtpServer server1 server2 server3 server4 =>
      set_ntp_server server1 server2 server3 server4
  | SetPowerConfiguration policy delayType delayValue =>
      set_power_configuration policy delayType delayValue
  | SetSyslogServer server type => set_syslog_server server type
  | SetUser uid username password priv status =>
      set_user uid username password priv status
  | TftpUpdateBios server path => tftp_update_bios server path
  | TftpUpdateCimc server path => tftp_update_cimc server path
  end.

(** *** salt/modules/mattermost.py *)

Definition config_get (key : string) : prog pyval :=
  host (Salt "config.get" [PyStr key] []).

(** [a or b] *)
Definition py_or (a b : prog pyval) : prog pyval :=
  x <- a ;; if truthy x then Ret x else b.

Definition _get_hook : prog pyval :=
  hook <- py_or (config_get "mattermost.hook") (config_get "mattermost:hook") ;;
  if negb (truthy hook) then
    Raise (SaltInvocationError "No Mattermost Hook found")
  else Ret hook.

Definition _get_api_url : prog pyval :=
  api_url <- py_or (config_get "mattermost.api_url")
                   (config_get "mattermost:api_url") ;;
  if negb (truthy api_url) then
    Raise (SaltInvocationError "No Mattermost API URL found")
  else Ret api_url.

Definition _get_channel : prog pyval :=
  py_or (config_get "mattermost.channel") (config_get "mattermost:channel").

Definition _get_username : prog pyval :=
  py_or (config_get "mattermost.username") (config_get "mattermost:username").

Definition post_message (message channel username api_url hook : pyval)
    : prog pyval :=
  api_url <- (if negb (truthy api_url) then _get_api_url else Ret api_url) ;;
  hook <- (if negb (truthy hook) then _get_hook else Ret hook) ;;
  username <- (if negb (truthy username) then _get_username else Ret username) ;;
  channel <- (if negb (truthy channel) then _get_channel else Ret channel) ;;
  (if negb (truthy message)
   then host (Log "error" "message is a required option." [])
   else Ret PyNone) ;;
  let parameters : dict := [] in
  let parameters :=
    if truthy channel then dict_set "channel" channel parameters
    else parameters in
  let parameters :=
    if truthy username then dict_set "username" username parameters
    else parameters in
  text <- lift (str_add "```" message) ;;
  let parameters := dict_set "text" (PyStr (text ++ "```")) parameters in
  host (Log "debug" "Parameters: %s" [PyDict parameters]) ;;
  let data := "payload=" ++ json_dumps parameters in
  result <- host (MattermostQuery api_url hook data) ;;
  Ret (PyBool (truthy result)).

(** ** Running a program against a host *)

Variable World : Type.
Variable handle : call -> World -> pyval * World.

Fixpoint run {A : Type} (p : prog A) (w : World)
    : outcome A * list call * World :=
  match p with
  | Ret a => (Returned a, [], w)
  | Raise e => (Raised e, [], w)
  | Do c k =>
      let '(v, w1) := handle c w in
      let '(o, t, w2) := run (k v) w1 in
      (o, c :: t, w2)
  end.

Definition answer (c : call) (w : World) : pyval := fst (handle c w).
Definition after (c : call) (w : World) : World := snd (handle c w).

Definition outcome_of {A : Type} (r : outcome A * list call * World)
    : outcome A := fst (fst r).
Definition trace_of {A : Type} (r : outcome A * list call * World)
    : list call := snd (fst r).
Definition world_of {A : Type} (r : outcome A * list call * World)
    : World := snd r.

(** ** Specification-side definitions *)

Definition is_list (v : pyval) : bool :=
  match v with PyList _ => true | _ => false end.

Definition is_bool (v : pyval) : bool :=
  match v with PyBool _ => true | _ => false end.

(** the ["key=value"] strings of a dictionary *)
Definition key_value_strings (v : pyval) : list pyval :=
  match v with
  | PyDict d => map (fun kv => PyStr (fst kv ++ "=" ++ py_str (snd kv))) d
  | _ => []
  end.

(** the shapes of [options] that [present] documents (a dictionary, a list
    of strings, a list of dictionaries), and everything that is not a list *)
Definition documented_options (options : pyval) : bool :=
  match options with
  | PyList l => forallb is_str l || forallb is_dict l
  | _ => true
  end.

Definition kwargs_of (c : call) : dict :=
  match c with Salt _ _ kwargs => kwargs | _ => [] end.

Definition is_call_to (fn : string) (c : call) : bool :=
  match c with Salt fn' _ _ => fn' =? fn | _ => false end.

(** the [blkid] query of [_checkblk], and the file system it reports *)
Definition blkid_call (name : string) : call :=
  Salt "cmd.run"
    [PyList [PyStr "blkid"; PyStr "-o"; PyStr "value"; PyStr "-s";
             PyStr "TYPE"; PyStr name]]
    [("ignore_retcode", PyBool true)].

Definition fs_of (blk : pyval) : pyval :=
  if negb (truthy blk) then PyStr "" else blk.

(** The state read from the managed system already is the declared one:
    the database exists ([present]), does not exist ([absent]), the device
    exists and carries the declared file system ([formatted]).  [tuned]
    reads no state before it acts. *)
Definition in_state (f : state_fn) (w : World) : bool :=
  match f with
  | Present name _ _ kwargs =>
      truthy (answer (Salt "mssql.db_exists" [PyStr name] kwargs) w)
  | Absent name _ =>
      negb (truthy (answer (Salt "mssql.db_exists" [PyStr name] []) w))
  | Formatted name fs_type _ _ =>
      truthy (answer (OsPathExists name) w)
      && py_eq (fs_of (answer (blkid_call name) (after (OsPathExists name) w)))
               (PyStr fs_type)
  | Tuned _ _ => false
  end.

(** A change is needed, as the state of the managed system tells: the
    database is missing ([present]), exists ([absent]), the device exists
    and carries another file system than the declared one ([formatted]).
    [tuned] reads no state before it acts: every call counts. *)
Definition needs_change (f : state_fn) (w : World) : bool :=
  match f with
  | Present name _ _ kwargs =>
      negb (truthy (answer (Salt "mssql.db_exists" [PyStr name] kwargs) w))
  | Absent name _ =>
      truthy (answer (Salt "mssql.db_exists" [PyStr name] []) w)
  | Formatted name fs_type _ _ =>
      truthy (answer (OsPathExists name) w)
      && negb (py_eq (fs_of (answer (blkid_call name)
                               (after (OsPathExists name) w)))
                     (PyStr fs_type))
  | Tuned _ _ => true
  end.

(** The test that stands before the dry-run test passes: [mkfs.<fs_type>]
    is installed ([formatted]), the registry entry [file.is_blkdev] is true
    ([tuned]); [present] and [absent] have none. *)
Definition guard_passes (h : host_env) (f : state_fn) (w : World) : bool :=
  match f with
  | Formatted name fs_type _ _ =>
      truthy (answer (Which ("mkfs." ++ fs_type))
                (after (blkid_call name) (after (OsPathExists name) w)))
  | Tuned _ _ => salt_file_is_blkdev h
  | Present _ _ _ _ | Absent _ _ => true
  end.

(** observing the managed system does not change it *)
Definition pure_reads : Prop :=
  forall c w, is_read c = true -> after c w = w.

(** a state function reported success with no change *)
Definition no_change (o : outcome state_ret) : Prop :=
  exists r, o = Returned r /\ result r = Some true /\ changes r = [].

(** a state function reported the pending result of a dry run *)
Definition pending (o : outcome state_ret) : Prop :=
  exists r, o = Returned r /\ result r = None.

Definition applied (t : list call) : bool := existsb is_apply t.

(** *** [blockdev.tuned]: what the specification says of one option *)

Definition recognised (key : string) : bool :=
  match assoc key kwarg_map with Some _ => true | None => false end.

Definition dump_call (name : string) : call := Salt "disk.dump" [PyStr name] [].

Definition tune_call (name : string) (kwargs : dict) : call :=
  Salt "disk.tune" [PyStr name] kwargs.

(** the value a [blockdev] report holds for a switch *)
Definition value_at (report : pyval) (switch : string) : pyval :=
  match py_getitem report (PyStr switch) with
  | inr v => v
  | inl _ => PyNone
  end.

Definition has_value (report : pyval) (switch : string) : bool :=
  match py_getitem report (PyStr switch) with
  | inr _ => true
  | inl _ => false
  end.

(** the external representation ["1"]/["0"] of a flag, and its truth value *)
Definition is_flag (v : pyval) : bool :=
  py_eq v (PyStr "1") || py_eq v (PyStr "0").

Definition flag (v : pyval) : bool := py_eq v (PyStr "1").

(** The comparison as the claim words it: the declared value and the
    current value, both normalised to booleans, are compared. *)
Definition normalized (v : pyval) : bool :=
  match v with
  | PyBool b => b
  | _ => py_eq v (PyStr "1")
  end.

Definition claimed_change (declared current : pyval) : bool :=
  negb (Bool.eqb (normalized declared) (normalized current)).

(** the value [tuned] shows for a report value of an option declared with a
    boolean: normalised, and negated for [read-write] *)
Definition shown (key : string) (v : pyval) : pyval :=
  PyBool (if key =? "read-write" then negb (flag v) else flag v).

(** a report holds a value for the switch of every recognised option *)
Definition covers (report : pyval) (kwargs : dict) : bool :=
  forallb
    (fun kv =>
       match assoc (fst kv) kwarg_map with
       | Some switch => has_value report switch
       | None => true
       end) kwargs.

(** the entry [tuned] records for one option, if any *)
Definition tuned_entry (before after_tune : pyval) (key : string)
    (declared : pyval) : option pyval :=
  match assoc key kwarg_map with
  | None => None
  | Some switch =>
      let cur := value_at before switch in
      let new := value_at after_tune switch in
      if py_eq cur new then None
      else
        let '(old, new) := tuned_report key declared cur new in
        Some (PyStr ("Changed from " ++ py_str old ++ " to " ++ py_str new))
  end.

Definition record_entry (before after_tune : pyval) (changeset : dict)
    (kv : string * pyval) : dict :=
  match tuned_entry before after_tune (fst kv) (snd kv) with
  | Some v => dict_set (fst kv) v changeset
  | None => changeset
  end.

(** *** [cimc] and [mattermost]: what the specification names *)

Definition set_config_modify (dn inconfig : string) : call :=
  Proxy "cimc.set_config_modify" [PyStr dn; PyStr inconfig; PyBool false].

Definition backup_image_dn : string :=
  "sys/rack-unit-1/mgmt/fw-boot-def/bootunit-combined".

Definition backup_image_payload (reset_on_activate : string) : string :=
  "<firmwareBootUnit dn='sys/rack-unit-1/mgmt/fw-boot-def/bootunit-combined'"
    ++ nl ++ "    adminState='trigger' image='backup' resetOnActivate='"
    ++ reset_on_activate ++ "' />".

(** [v[i1][i2]...] *)
Fixpoint py_path (v : pyval) (path : list pyval) : exn + pyval :=
  match path with
  | [] => inr v
  | i :: rest =>
      match py_getitem v i with
      | inl e => inl e
      | inr u => py_path u rest
      end
  end.

Definition hostname_path : list pyval :=
  [PyStr "outConfigs"; PyStr "mgmtIf"; PyInt 0; PyStr "hostname"].

Definition mgmt_if_call : call :=
  Proxy "cimc.get_config_resolver_class" [PyStr "mgmtIf"; PyBool true].

Definition config_call (key : string) : call :=
  Salt "config.get" [PyStr key] [].

(** the value an option of [post_message] takes: the argument when it is
    true, else the first of the two configuration keys that is set *)
Definition configured (cfg : string -> pyval) (passed : pyval)
    (key1 key2 : string) : pyval :=
  if truthy passed then passed
  else if truthy (cfg key1) then cfg key1 else cfg key2.

(** *** Further specification-side definitions *)

Definition missing (v : pyval) : bool := negb (truthy v).

(** the setter refuses its arguments: a required parameter is missing, or
    an enumerated value that it checks is not one of the allowed ones *)
Definition rejected (s : cimc_setter) : bool :=
  match s with
  | ActivateBackupImage _ | Reboot | SetNtpServer _ _ _ _ => false
  | CreateUser uid username password priv =>
      missing uid || missing username || missing password || missing priv
  | MountShare name remote_share remote_file _ _ _ =>
      missing name || missing remote_share || missing remote_file
  | SetHostname hostname => missing hostname
  | SetLoggingLevels remote local =>
      (truthy remote && negb (py_in remote logging_options))
      || (truthy local && negb (py_in local logging_options))
  | SetPowerConfiguration policy delayType _ =>
      negb (py_in policy ["reset"; "stay-off"; "last-state"])
      || (py_eq policy (PyStr "reset") && truthy delayType
          && negb (py_in delayType ["fixed"; "random"]))
  | SetSyslogServer server type =>
      missing server || negb (py_in type ["primary"; "secondary"])
  | SetUser uid _ _ _ _ => missing uid
  | TftpUpdateBios server path | TftpUpdateCimc server path =>
      missing server || missing path
  end.

(** the object path a setter addresses *)
Definition object_path (s : cimc_setter) : string :=
  match s with
  | ActivateBackupImage _ => backup_image_dn
  | CreateUser uid _ _ _ | SetUser uid _ _ _ _ =>
      "sys/user-ext/user-" ++ py_str uid
  | MountShare name _ _ _ _ _ => "sys/svc-ext/vmedia-svc/vmmap-" ++ py_str name
  | Reboot => "sys/rack-unit-1"
  | SetHostname _ => "sys/rack-unit-1/mgmt/if-1"
  | SetLoggingLevels _ _ => "sys/svc-ext/syslog"
  | SetNtpServer _ _ _ _ => "sys/svc-ext/ntp-svc"
  | SetPowerConfiguration _ _ _ =>
      "sys/rack-unit-1/board/Resume-on-AC-power-loss"
  | SetSyslogServer _ type =>
      if py_eq type (PyStr "primary")
      then "sys/svc-ext/syslog/client-primary"
      else "sys/svc-ext/syslog/client-secondary"
  | TftpUpdateBios _ _ => "sys/rack-unit-1/bios/fw-updatable"
  | TftpUpdateCimc _ _ => "sys/rack-unit-1/mgmt/fw-updatable"
  end.

Definition status_path : list pyval :=
  [PyStr "outConfig"; PyStr "mgmtIf"; PyInt 0; PyStr "status"].

Definition is_sleep (c : call) : bool :=
  match c with Sleep _ => true | _ => false end.

Definition count (p : call -> bool) (t : list call) : nat :=
  length (filter p t).

(** a list begins with a string, or is empty *)
Definition starts_with_str (l : list pyval) : bool :=
  match l with
  | [] => true
  | x :: _ => is_str x
  end.

(** the object [post_message] serialises *)
Definition message_parameters (channel username : pyval) (text : string)
    : dict :=
  ((if truthy channel then [("channel", channel)] else [])
     ++ (if truthy username then [("username", username)] else [])
     ++ [("text", PyStr text)])%list.

(** the reports agree on the switch of every recognised option *)
Definition unchanged (before after_tune : pyval) (kwargs : dict) : bool :=
  forallb
    (fun kv =>
       match assoc (fst kv) kwarg_map with
       | Some switch =>
           py_eq (value_at before switch) (value_at after_tune switch)
       | None => true
       end) kwargs.

(** the two reports of [formatted] after it has formatted the device *)
Definition poll_failed (name : string) : state_ret :=
  mk_ret name (Some false) ("Failed to format " ++ name) [].

Definition poll_succeeded (name fs_type : string) : state_ret :=
  mk_ret name (Some true) (name ++ " has been formatted with " ++ fs_type)
    [("new", PyStr fs_type); ("old", PyStr fs_type)].

Definition three_seconds (c : call) : bool :=
  match c with Sleep n => (n =? 3)%Z | _ => true end.

Definition is_blkid (c : call) : bool := is_call_to "cmd.run" c.

(** ** Facts about [run] *)

Lemma run_bind {A B : Type} (p : prog A) (f : A -> prog B) (w : World) :
  run (prog_bind p f) w =
  match run p w with
  | (Returned a, t, w1) =>
      let '(o, t2, w2) := run (f a) w1 in (o, (t ++ t2)%list, w2)
  | (Raised e, t, w1) => (Raised e, t, w1)
  end.
Proof.
  revert w; induction p as [a | e | c k IH]; intros w; simpl.
  - destruct (run (f a) w) as [[o t] w2]; reflexivity.
  - reflexivity.
  - destruct (handle c w) as [v w1]. rewrite IH.
    destruct (run (k v) w1) as [[[a | e] t] w2]; [| reflexivity].
    destruct (run (f a) w2) as [[o t2] w3]; reflexivity.
Qed.

Lemma run_host (c : call) (w : World) :
  run (host c) w = (Returned (answer c w), [c], after c w).
Proof.
  unfold host, answer, after; simpl. destruct (handle c w); reflexivity.
Qed.

(** ** mssql_database._normalize_options *)

Lemma key_value_strings_are_strings (v : pyval) :
  forallb is_str (key_value_strings v) = true.
Proof.
  destruct v; try reflexivity. simpl.
  induction d as [| kv d IH]; simpl; auto.
Qed.

Lemma normalize_dict_list (l : list pyval) :
  forallb is_dict l = true ->
  flat_map _normalize_options l = flat_map key_value_strings l.
Proof.
  induction l as [| x l IH]; simpl; intros H; [reflexivity |].
  apply andb_true_iff in H as [Hx Hl].
  destruct x; try discriminate. simpl. now rewrite IH.
Qed.

Lemma flat_map_strings (l : list pyval) :
  forallb is_str (flat_map key_value_strings l) = true.
Proof.
  induction l as [| x l IH]; simpl; [reflexivity |].
  rewrite forallb_app, key_value_strings_are_strings, IH. reflexivity.
Qed.

(** C10 (amended).  [_normalize_options] maps a dictionary to its
    ["key=value"] strings, returns a list of strings unchanged, flattens a
    list of dictionaries to the ["key=value"] strings of each, and gives the
    empty list for whatever is neither a dictionary nor a list and for a
    list whose first element is neither a string nor a dictionary.  A list
    is classified by its first element alone: one that starts with a string
    is returned unchanged whatever follows.  The result is a list of strings
    whenever [options] is a dictionary, a list of strings, a list of
    dictionaries or not a list; [present] passes
    [_normalize_options(options)] as [new_database_options] of every
    [mssql.db_create] call, and issues that call when the database is
    missing, outside dry-run. *)
Theorem _normalize_options_by_shape :
  (forall d, _normalize_options (PyDict d) = key_value_strings (PyDict d)) /\
  (forall l, forallb is_str l = true -> _normalize_options (PyList l) = l) /\
  (forall l, forallb is_dict l = true ->
     _normalize_options (PyList l) = flat_map key_value_strings l) /\
  (forall o, is_dict o = false -> is_list o = false ->
     _normalize_options o = []) /\
  (forall x l, is_str x = false -> is_dict x = false ->
     _normalize_options (PyList (x :: l)) = []) /\
  (forall s l, _normalize_options (PyList (PyStr s :: l)) = PyStr s :: l) /\
  (forall o, documented_options o = true ->
     forallb is_str (_normalize_options o) = true) /\
  (forall h name containment options kwargs w c,
     In c (trace_of (run (present h name containment options kwargs) w)) ->
     is_call_to "mssql.db_create" c = true ->
     dict_get "new_database_options" (kwargs_of c)
     = Some (PyList (_normalize_options options))) /\
  (forall h name containment options kwargs w,
     truthy (answer (Salt "mssql.db_exists" [PyStr name] kwargs) w) = false ->
     truthy (opts_test h) = false ->
     dict_has "new_database_options" kwargs = false ->
     trace_of (run (present h name containment options kwargs) w)
     = [Salt "mssql.db_exists" [PyStr name] kwargs;
        Salt "mssql.db_create" [PyStr name]
          (("containment", containment)
           :: ("new_database_options", PyList (_normalize_options options))
           :: kwargs)]).
Proof.
  repeat split.
  - intros l H. destruct l as [| x l]; [reflexivity |].
    simpl in H. destruct x; try discriminate. reflexivity.
  - intros l H. destruct l as [| x l]; [reflexivity |].
    pose proof (normalize_dict_list (x :: l) H) as E.
    simpl in H. destruct x; try discriminate. exact E.
  - intros o Hd Hl. destruct o; try reflexivity; discriminate.
  - intros x l Hs Hd. destruct x; try reflexivity; discriminate.
  - intros o H. destruct o as [| b | z | s | l | d]; try reflexivity.
    + simpl in H. apply orb_true_iff in H as [H | H].
      * destruct l as [| x l]; [reflexivity |].
        pose proof H as H'. simpl in H'. destruct x; try discriminate. exact H.
      * destruct l as [| x l]; [reflexivity |].
        pose proof (normalize_dict_list (x :: l) H) as E.
        pose proof H as H'. simpl in H'. destruct x; try discriminate.
        change (_normalize_options (PyList (PyDict d :: l)))
          with (flat_map _normalize_options (PyDict d :: l)).
        rewrite E. apply flat_map_strings.
    + apply (key_value_strings_are_strings (PyDict d)).
  - intros h name0 containment options kwargs w c Hin Hc.
    unfold present, trace_of in Hin. cbn [bind Monad_prog] in Hin.
    rewrite run_bind, run_host in Hin.
    destruct (truthy (answer _ w)).
    { simpl in Hin. destruct Hin as [<- | []]. discriminate. }
    destruct (truthy (opts_test h)).
    { simpl in Hin. destruct Hin as [<- | []]. discriminate. }
    destruct (dict_has "new_database_options" kwargs).
    { simpl in Hin. destruct Hin as [<- | []]. discriminate. }
    rewrite run_bind, run_host in Hin.
    destruct (answer _ (after _ w)) as [| [|] | | | |];
      simpl in Hin; destruct Hin as [<- | [<- | []]];
      try discriminate; reflexivity.
  - intros h name0 containment options kwargs w H1 H2 H3.
    unfold present, trace_of. cbn [bind Monad_prog].
    rewrite run_bind, run_host, H1, H2, H3, run_bind, run_host.
    destruct (answer _ (after _ w)) as [| [|] | | | |]; reflexivity.
Qed.

(** ** The state functions: already in state, and dry run *)

Ltac step :=
  repeat (rewrite ?run_bind, ?run_host; cbn [bind Monad_prog fst snd run app]).

(** C1.  When the state read from the managed system already is the
    declared one, [present], [absent] and [formatted] return [result = True]
    with empty [changes] and do not call the apply function; if reading
    does not change the managed system, the world is left as it was and a
    second call reports no changes either. *)
Theorem in_state_reports_no_changes (h : host_env) (f : state_fn) (w : World) :
  in_state f w = true ->
  let r1 := run (call_state h f) w in
  no_change (outcome_of r1) /\
  applied (trace_of r1) = false /\
  (pure_reads ->
   let r2 := run (call_state h f) (world_of r1) in
   world_of r1 = w /\
   no_change (outcome_of r2) /\
   applied (trace_of r2) = false).
Proof.
  assert (first :
    forall w0, in_state f w0 = true ->
      no_change (outcome_of (run (call_state h f) w0)) /\
      applied (trace_of (run (call_state h f) w0)) = false /\
      (pure_reads -> world_of (run (call_state h f) w0) = w0)).
  { intros w0 H. destruct f as [n kw | n fs force kw | n c o kw | n kw];
      simpl in H; [discriminate | | |].
    - apply andb_true_iff in H as [Hp Hfs].
      unfold call_state, formatted, _checkblk. step. rewrite Hp. simpl negb.
      cbv iota. step.
      unfold fs_of, blkid_call in Hfs.
      rewrite Hfs. simpl.
      repeat split.
      + eexists; repeat split.
      + intros P. unfold world_of; simpl.
        rewrite (P (OsPathExists n)) by reflexivity.
        apply P; reflexivity.
    - unfold call_state, present. step. rewrite H. simpl.
      repeat split.
      + eexists; repeat split.
      + intros P. apply P; reflexivity.
    - apply negb_true_iff in H.
      unfold call_state, absent. step. rewrite H. simpl.
      repeat split.
      + eexists; repeat split.
      + intros P. apply P; reflexivity. }
  intros H r1.
  destruct (first w H) as (A & B & C).
  split; [exact A |]. split; [exact B |].
  intros P r2. subst r1 r2.
  rewrite (C P). destruct (first w H) as (A' & B' & _). auto.
Qed.

(** C2 (amended).  In dry-run mode ([__opts__["test"]] true) no state
    function calls its apply function ([disk.tune], [disk.format],
    [mssql.db_create], [mssql.db_remove]).  When a change is needed and
    the test that stands before the dry-run test passes, the function
    returns [result = None]; [formatted], when a change is needed and
    [mkfs.<fs_type>] is not installed, returns [result = False] with the
    comment [Invalid fs_type] instead. *)
Theorem dry_run_reports_pending (h : host_env) (f : state_fn) (w : World) :
  truthy (opts_test h) = true ->
  let r := run (call_state h f) w in
  applied (trace_of r) = false /\
  (needs_change f w = true -> guard_passes h f w = true ->
   pending (outcome_of r)) /\
  (forall name fs_type force kwargs,
     f = Formatted name fs_type force kwargs ->
     needs_change f w = true -> guard_passes h f w = false ->
     outcome_of r
     = Returned (mk_ret name (Some false) ("Invalid fs_type: " ++ fs_type) [])).
Proof.
  intros T r. subst r.
  destruct f as [n kw | n fs force kw | n c o kw | n kw];
    unfold call_state, needs_change, guard_passes, fs_of, blkid_call.
  - unfold tuned. rewrite T.
    destruct (salt_file_is_blkdev h); cbn [negb].
    + split; [reflexivity |]. split; [| discriminate].
      intros _ _. eexists; split; reflexivity.
    + split; [reflexivity |]. split; discriminate.
  - unfold formatted, _checkblk. rewrite T. step.
    destruct (truthy (answer (OsPathExists n) w)); cbn [negb andb].
    2:{ split; [reflexivity |]. split; [discriminate |].
        intros ? ? ? ? _. discriminate. }
    step.
    destruct (py_eq _ (PyStr fs)); cbn [negb].
    { split; [reflexivity |]. split; [discriminate |].
      intros ? ? ? ? _. discriminate. }
    step.
    destruct (truthy (answer (Which _) _)); cbn [negb].
    + split; [reflexivity |]. split.
      * intros _ _. eexists; split; reflexivity.
      * intros ? ? ? ? _ _. discriminate.
    + split; [reflexivity |]. split; [intros _; discriminate |].
      intros name0 fs0 force0 kw0 [= <- <- <- <-] _ _. reflexivity.
  - unfold present. rewrite T. step.
    destruct (truthy (answer _ w)); cbn [negb].
    { split; [reflexivity |]. split; discriminate. }
    split; [reflexivity |]. split; [| discriminate].
    intros _ _. eexists; split; reflexivity.
  - unfold absent. rewrite T. step.
    destruct (truthy (answer _ w)); cbn [negb].
    2:{ split; [reflexivity |]. split; discriminate. }
    split; [reflexivity |]. split; [| discriminate].
    intros _ _. eexists; split; reflexivity.
Qed.

(** ** [blockdev.tuned] *)

Lemma py_eq_str (v : pyval) (s : string) :
  py_eq v (PyStr s) = true -> v = PyStr s.
Proof.
  destruct v; simpl; try discriminate.
  intros H. apply String.eqb_eq in H. now subst.
Qed.

Lemma is_flag_cases (v : pyval) :
  is_flag v = true -> v = PyStr "1" \/ v = PyStr "0".
Proof.
  unfold is_flag. intros H. apply orb_true_iff in H as [H | H];
    apply py_eq_str in H; auto.
Qed.

Lemma getitem_falsy (v : pyval) (k : string) :
  truthy v = false -> has_value v k = false.
Proof.
  unfold has_value. destruct v as [| b | z | s | l | d]; simpl; try reflexivity.
  destruct d; [reflexivity | discriminate].
Qed.

Lemma dict_get_set_same (k : string) (v : pyval) (d : dict) :
  dict_get k (dict_set k v d) = Some v.
Proof.
  induction d as [| [k' v'] d IH]; simpl.
  - now rewrite String.eqb_refl.
  - destruct (k' =? k) eqn:E; simpl; rewrite E; auto.
Qed.

Lemma dict_get_set_other (k k' : string) (v : pyval) (d : dict) :
  k' <> k -> dict_get k (dict_set k' v d) = dict_get k d.
Proof.
  intros N. induction d as [| [k2 v2] d IH]; simpl.
  - apply String.eqb_neq in N. now rewrite N.
  - destruct (k2 =? k') eqn:E; simpl.
    + apply String.eqb_eq in E. subst k2.
      apply String.eqb_neq in N. now rewrite N.
    + destruct (k2 =? k); auto.
Qed.

(** the loop, as long as both reports hold every switch it reads *)
Lemma tuned_key_entry (before after_tune : pyval) (kv : string * pyval)
    (changeset : dict) :
  covers before [kv] = true -> covers after_tune [kv] = true ->
  tuned_key before after_tune (fst kv) (snd kv) changeset
  = inr (record_entry before after_tune changeset kv).
Proof.
  unfold covers, record_entry, tuned_entry, tuned_key, has_value, value_at.
  cbn [forallb]. rewrite !andb_true_r.
  destruct (assoc (fst kv) kwarg_map) as [sw |]; [| reflexivity].
  destruct (py_getitem before (PyStr sw)) as [e | c]; [discriminate |].
  destruct (py_getitem after_tune (PyStr sw)) as [e | n]; [discriminate |].
  intros _ _. destruct (py_eq c n); cbn [negb]; [reflexivity |].
  destruct (tuned_report (fst kv) (snd kv) c n); reflexivity.
Qed.

Lemma tuned_loop_entries (before after_tune : pyval) (kwargs changeset : dict) :
  covers before kwargs = true -> covers after_tune kwargs = true ->
  tuned_loop before after_tune kwargs changeset
  = inr (fold_left (record_entry before after_tune) kwargs changeset).
Proof.
  revert changeset. induction kwargs as [| [key d] kwargs IH];
    intros changeset Hb Ha; [reflexivity |].
  unfold covers in Hb, Ha. cbn [forallb] in Hb, Ha.
  apply andb_true_iff in Hb as [Hb1 Hb2].
  apply andb_true_iff in Ha as [Ha1 Ha2].
  cbn [tuned_loop fold_left].
  change key with (fst (key, d)) at 1. change d with (snd (key, d)) at 2.
  rewrite (tuned_key_entry before after_tune (key, d) changeset)
    by (unfold covers; cbn [forallb]; rewrite ?Hb1, ?Ha1; reflexivity).
  now apply IH.
Qed.

Lemma fold_entries_other (before after_tune : pyval) (key : string)
    (kwargs changeset : dict) :
  ~ In key (map fst kwargs) ->
  dict_get key (fold_left (record_entry before after_tune) kwargs changeset)
  = dict_get key changeset.
Proof.
  revert changeset. induction kwargs as [| [k d] kwargs IH];
    intros changeset N; [reflexivity |].
  cbn [map fst In] in N. cbn [fold_left].
  rewrite IH by (intros X; apply N; right; exact X).
  unfold record_entry. cbn [fst snd].
  destruct (tuned_entry before after_tune k d); [| reflexivity].
  apply dict_get_set_other. intros ->. apply N. left. reflexivity.
Qed.

Lemma fold_entries_at (before after_tune : pyval) (key : string)
    (declared : pyval) (kwargs changeset : dict) :
  NoDup (map fst kwargs) -> In (key, declared) kwargs ->
  dict_get key changeset = None ->
  dict_get key (fold_left (record_entry before after_tune) kwargs changeset)
  = tuned_entry before after_tune key declared.
Proof.
  revert changeset. induction kwargs as [| [k d] kwargs IH];
    intros changeset ND I G; [destruct I |].
  cbn [map fst] in ND. inversion ND as [| ? ? Hnotin ND']; subst.
  cbn [fold_left]. destruct I as [E | I].
  - inversion E; subst k d.
    rewrite fold_entries_other by exact Hnotin.
    unfold record_entry. cbn [fst snd].
    destruct (tuned_entry before after_tune key declared);
      [apply dict_get_set_same | exact G].
  - apply IH; [exact ND' | exact I |].
    unfold record_entry. cbn [fst snd].
    destruct (tuned_entry before after_tune k d); [| exact G].
    rewrite dict_get_set_other; [exact G |].
    intros ->. apply Hnotin. apply (in_map fst) in I. exact I.
Qed.

Lemma has_value_truthy (report : pyval) (switch : string) :
  has_value report switch = true -> truthy report = true.
Proof.
  intros H. destruct (truthy report) eqn:E; [reflexivity |].
  rewrite (getitem_falsy report switch E) in H. discriminate.
Qed.

Lemma tuned_loop_falsy (before after_tune : pyval) (kwargs : dict) :
  truthy after_tune = false ->
  existsb (fun kv => recognised (fst kv)) kwargs = true ->
  forall changeset,
    exists e, tuned_loop before after_tune kwargs changeset = inl e.
Proof.
  intros F. induction kwargs as [| [key d] kwargs IH]; intros E changeset;
    [discriminate |].
  cbn [existsb fst] in E. cbn [tuned_loop]. unfold tuned_key, recognised in *.
  destruct (assoc key kwarg_map) as [sw |].
  - destruct (py_getitem before (PyStr sw)) as [e | c]; [now exists e |].
    pose proof (getitem_falsy after_tune sw F) as G. unfold has_value in G.
    destruct (py_getitem after_tune (PyStr sw)) as [e | n];
      [now exists e | discriminate].
  - cbn [orb] in E. now apply IH.
Qed.

(** C3, at [blockdev.tuned].  When [disk.tune] answers with a false value
    and at least one recognised option is declared, [tuned] does not return
    [result = False]: the loop over the options subscripts the answer and
    the function raises. *)
Theorem tuned_raises_when_tune_fails (h : host_env) (name : string)
    (kwargs : dict) (w : World) :
  salt_file_is_blkdev h = true ->
  truthy (opts_test h) = false ->
  existsb (fun kv => recognised (fst kv)) kwargs = true ->
  truthy (answer (tune_call name kwargs) (after (dump_call name) w)) = false ->
  exists e, outcome_of (run (tuned h name kwargs) w) = Raised e.
Proof.
  intros B T R F. unfold tuned. rewrite B, T. cbn [negb]. step.
  destruct (tuned_loop_falsy (answer (dump_call name) w) _ kwargs F R [])
    as [e E].
  unfold dump_call, tune_call in E. rewrite E. exists e. reflexivity.
Qed.

Lemma fold_record_falsy (before after_tune : pyval) (kwargs : dict) :
  truthy after_tune = false ->
  covers after_tune kwargs = true ->
  forall changeset,
    fold_left (record_entry before after_tune) kwargs changeset = changeset.
Proof.
  intros F. unfold covers.
  induction kwargs as [| kv kwargs IH]; cbn [forallb fold_left]; intros H cs;
    [reflexivity |].
  apply andb_true_iff in H as [H1 H2]. rewrite IH by exact H2.
  unfold record_entry, tuned_entry.
  destruct (assoc (fst kv) kwarg_map) as [sw |]; [| reflexivity].
  rewrite (getitem_falsy after_tune sw F) in H1. discriminate.
Qed.

(** what [tuned] returns when both reports hold every switch it reads *)
Lemma tuned_returns (h : host_env) (name : string) (kwargs : dict) (w : World) :
  salt_file_is_blkdev h = true ->
  truthy (opts_test h) = false ->
  let before := answer (dump_call name) w in
  let after_tune := answer (tune_call name kwargs) (after (dump_call name) w) in
  covers before kwargs = true ->
  covers after_tune kwargs = true ->
  exists r,
    outcome_of (run (tuned h name kwargs) w) = Returned r /\
    result r = Some (truthy after_tune) /\
    changes r = fold_left (record_entry before after_tune) kwargs [].
Proof.
  intros B T before after_tune Cb Ca. unfold tuned. rewrite B, T.
  cbn [negb]. step.
  fold (dump_call name). fold (tune_call name kwargs).
  fold before. fold after_tune.
  rewrite (tuned_loop_entries before after_tune kwargs [] Cb Ca).
  cbn [lift]. step.
  destruct (truthy after_tune) eqn:F.
  - destruct (fold_left (record_entry before after_tune) kwargs [])
      as [| kv cs] eqn:E;
      eexists; repeat split; cbn [changes]; reflexivity.
  - rewrite (fold_record_falsy before after_tune kwargs F Ca).
    eexists; repeat split; reflexivity.
Qed.

(** C5.  In [tuned], with [read-write] declared as a boolean: when the
    read-only flag [getro] is the same before and after the tune call (in
    particular ["0"] both times) the changes hold no entry for
    [read-write]; when it differs, the entry reports the negations of the
    read-only values before and after. *)
Theorem read_write_reports_negated_read_only (h : host_env) (name : string)
    (kwargs : dict) (w : World) (b : bool) (ro ro' : pyval) :
  salt_file_is_blkdev h = true ->
  truthy (opts_test h) = false ->
  NoDup (map fst kwargs) ->
  In ("read-write", PyBool b) kwargs ->
  let before := answer (dump_call name) w in
  let after_tune := answer (tune_call name kwargs) (after (dump_call name) w) in
  covers before kwargs = true ->
  covers after_tune kwargs = true ->
  py_getitem before (PyStr "getro") = inr ro ->
  py_getitem after_tune (PyStr "getro") = inr ro' ->
  exists r,
    outcome_of (run (tuned h name kwargs) w) = Returned r /\
    result r = Some true /\
    (ro = PyStr "0" -> ro' = PyStr "0" ->
     dict_get "read-write" (changes r) = None) /\
    (py_eq ro ro' = true -> dict_get "read-write" (changes r) = None) /\
    (py_eq ro ro' = false ->
     dict_get "read-write" (changes r)
     = Some (PyStr ("Changed from " ++ py_str (PyBool (negb (flag ro)))
                      ++ " to " ++ py_str (PyBool (negb (flag ro')))))).
Proof.
  intros B T ND I before after_tune Cb Ca Gb Ga.
  destruct (tuned_returns h name kwargs w B T Cb Ca) as (r & O & R & C).
  fold before after_tune in R, C.
  assert (Tr : truthy after_tune = true).
  { apply (has_value_truthy after_tune "getro"). unfold has_value.
    now rewrite Ga. }
  assert (E : dict_get "read-write" (changes r)
              = tuned_entry before after_tune "read-write" (PyBool b)).
  { rewrite C. now apply fold_entries_at. }
  assert (V : tuned_entry before after_tune "read-write" (PyBool b)
              = if py_eq ro ro' then None
                else Some (PyStr ("Changed from "
                                    ++ py_str (PyBool (negb (flag ro)))
                                    ++ " to "
                                    ++ py_str (PyBool (negb (flag ro')))))).
  { unfold tuned_entry, value_at. cbn [assoc kwarg_map].
    change ("read-ahead" =? "read-write") with false.
    change ("filesystem-read-ahead" =? "read-write") with false.
    change ("read-only" =? "read-write") with false.
    change ("read-write" =? "read-write") with true. cbv iota.
    rewrite Gb, Ga. destruct (py_eq ro ro'); reflexivity. }
  exists r. split; [exact O |]. split; [now rewrite R, Tr |].
  rewrite E, V. repeat split.
  - intros -> ->. reflexivity.
  - intros ->. reflexivity.
  - intros ->. reflexivity.
Qed.

(** ** [cimc] *)

(** C7.  [activate_backup_image] with its default argument ([reset=False])
    submits, for the object path
    [sys/rack-unit-1/mgmt/fw-boot-def/bootunit-combined], a payload that
    holds [adminState='trigger' image='backup' resetOnActivate='no'] to the
    proxy's modify entry point, and with [reset=True] one that holds
    [resetOnActivate='yes']; it returns the proxy's answer. *)
Theorem activate_backup_image_payload (w : World) :
  let no := set_config_modify backup_image_dn (backup_image_payload "no") in
  let yes := set_config_modify backup_image_dn (backup_image_payload "yes") in
  run (activate_backup_image (PyBool false)) w
  = (Returned (answer no w), [no], after no w) /\
  run (activate_backup_image (PyBool true)) w
  = (Returned (answer yes w), [yes], after yes w) /\
  contains "adminState='trigger' image='backup' resetOnActivate='no'"
    (backup_image_payload "no") = true /\
  contains "adminState='trigger' image='backup' resetOnActivate='yes'"
    (backup_image_payload "yes") = true /\
  contains "resetOnActivate='no'" (backup_image_payload "yes") = false.
Proof.
  intros no yes. repeat split.
  - unfold activate_backup_image. now rewrite run_host.
  - unfold activate_backup_image. now rewrite run_host.
Qed.

(** C9.  Whatever the proxy answers, [get_hostname] returns: the value at
    [outConfigs.mgmtIf[0].hostname] of the answer when every subscription
    on the way succeeds, and the string [Unable to retrieve hostname]
    otherwise.  It never raises. *)
Theorem get_hostname_never_raises (w : World) :
  run get_hostname w
  = (Returned
       (match py_path (answer mgmt_if_call w) hostname_path with
        | inr hostname => hostname
        | inl _ => PyStr "Unable to retrieve hostname"
        end),
     [mgmt_if_call], after mgmt_if_call w).
Proof.
  unfold get_hostname. step. fold mgmt_if_call.
  unfold hostname_path, try_except. cbn [py_path].
  destruct (py_getitem (answer mgmt_if_call w) (PyStr "outConfigs"))
    as [e | a]; [reflexivity |].
  destruct (py_getitem a (PyStr "mgmtIf")) as [e | b]; [reflexivity |].
  destruct (py_getitem b (PyInt 0)) as [e | c]; [reflexivity |].
  destruct (py_getitem c (PyStr "hostname")); reflexivity.
Qed.

(** [create_user] raises before any proxy call when a required parameter is
    missing *)
Lemma create_user_requires_parameters (uid username password priv : pyval)
    (w : World) :
  truthy uid && truthy username && truthy password && truthy priv = false ->
  exists msg,
    run (create_user uid username password priv) w
    = (Raised (CommandExecutionError msg), [], w).
Proof.
  unfold create_user. intros H.
  destruct (truthy uid); [| eexists; reflexivity].
  destruct (truthy username); [| eexists; reflexivity].
  destruct (truthy password); [| eexists; reflexivity].
  destruct (truthy priv); [discriminate | eexists; reflexivity].
Qed.

(** [set_logging_levels] raises before any proxy call when a severity is
    given that is not one of the eight levels *)
Lemma set_logging_levels_rejects (remote local : pyval) (w : World) :
  (truthy remote && negb (py_in remote logging_options))
  || (truthy local && negb (py_in local logging_options)) = true ->
  exists msg,
    run (set_logging_levels remote local) w
    = (Raised (CommandExecutionError msg), [], w).
Proof.
  unfold set_logging_levels. cbn [bind Monad_prog]. intros H.
  destruct (truthy remote); cbn [andb orb] in H.
  - destruct (py_in remote logging_options); cbn [negb orb] in H;
      [| eexists; reflexivity].
    cbn [prog_bind].
    destruct (truthy local); [| discriminate].
    destruct (py_in local logging_options); [discriminate |].
    eexists; reflexivity.
  - cbn [prog_bind].
    destruct (truthy local); [| discriminate].
    destruct (py_in local logging_options); [discriminate |].
    eexists; reflexivity.
Qed.

(** ** [mattermost] *)

Ltac split_if :=
  match goal with
  | |- context [if negb ?b then _ else _] => destruct b eqn:?; cbn [negb]
  | |- context [if ?b then _ else _] => destruct b eqn:?
  end.

(** C6, at [mattermost.post_message].  With an empty message (and a hook
    and an API URL passed in) the function logs that the message is
    required and goes on: it returns, and the query has been sent. *)
Theorem post_message_without_message_is_sent
    (channel username api_url hook : pyval) (w : World) :
  truthy api_url = true ->
  truthy hook = true ->
  let r := run (post_message (PyStr "") channel username api_url hook) w in
  (exists v, outcome_of r = Returned v) /\
  In (Log "error" "message is a required option." []) (trace_of r) /\
  existsb is_query (trace_of r) = true.
Proof.
  intros U H r. subst r.
  unfold post_message, _get_username, _get_channel, py_or, config_get.
  rewrite U, H. cbn [negb truthy String.eqb lift str_add].
  repeat (step; try split_if);
    (split; [eexists; reflexivity |]);
    (split; [cbn; repeat first [left; reflexivity | right] | reflexivity]).
Qed.

(** without an API URL, passed or configured, [post_message] raises before
    the query *)
Lemma post_message_requires_api_url
    (message channel username hook : pyval) (w : World) :
  let r := run (post_message message channel username PyNone hook) w in
  truthy (answer (config_call "mattermost.api_url") w) = false ->
  truthy (answer (config_call "mattermost:api_url")
            (after (config_call "mattermost.api_url") w)) = false ->
  outcome_of r = Raised (SaltInvocationError "No Mattermost API URL found") /\
  existsb is_query (trace_of r) = false.
Proof.
  intros r A B. subst r.
  unfold post_message, _get_api_url, py_or, config_get.
  cbn [negb truthy]. step.
  unfold config_call in A, B. rewrite A. step. rewrite B.
  cbn [negb]. split; reflexivity.
Qed.

Ltac case_truthy :=
  match goal with
  | |- context [if negb (truthy ?x) then _ else _] =>
      let E := fresh "E" in
      destruct (truthy x) eqn:E; rewrite ?E in *; cbn [negb] in *
  | |- context [if truthy ?x then _ else _] =>
      let E := fresh "E" in
      destruct (truthy x) eqn:E; rewrite ?E in *; cbn [negb] in *
  end.

(** C8.  [post_message] with a message, an API URL and a hook that are
    passed or configured, and neither channel nor user name passed or
    configured, sends exactly one query; its data is [payload=] followed by
    the JSON of the object whose only key is [text], holding the message
    between two code-block delimiters; the function returns the truth
    value of the query's result. *)
Theorem post_message_text_only (cfg : string -> pyval) (message : string)
    (channel username api_url hook : pyval) (w : World) :
  (forall key w', answer (config_call key) w' = cfg key) ->
  truthy (configured cfg api_url "mattermost.api_url" "mattermost:api_url")
  = true ->
  truthy (configured cfg hook "mattermost.hook" "mattermost:hook") = true ->
  truthy (configured cfg channel "mattermost.channel" "mattermost:channel")
  = false ->
  truthy (configured cfg username "mattermost.username" "mattermost:username")
  = false ->
  let q :=
    MattermostQuery
      (configured cfg api_url "mattermost.api_url" "mattermost:api_url")
      (configured cfg hook "mattermost.hook" "mattermost:hook")
      ("payload=" ++ json_dumps [("text", PyStr ("```" ++ message ++ "```"))])
  in
  let r := run (post_message (PyStr message) channel username api_url hook) w in
  filter is_query (trace_of r) = [q] /\
  exists w', outcome_of r = Returned (PyBool (truthy (answer q w'))).
Proof.
  intros Hcfg Hu Hh Hc Hn q r. subst q r.
  unfold configured in *. unfold config_call in Hcfg.
  unfold post_message, _get_api_url, _get_hook, _get_username, _get_channel,
    py_or, config_get.
  repeat (step; rewrite ?Hcfg; cbn [lift str_add dict_set];
          try case_truthy; try congruence).
  all: (split; [reflexivity | eexists; reflexivity]).
Qed.

(** ** Failures of the apply function in the other state functions *)

(** [present] reports a [mssql.db_create] answer other than [True] as a
    failure *)
Lemma present_reports_failed_create (h : host_env) (name : string)
    (containment options : pyval) (kwargs : dict) (w : World) :
  let exists_call := Salt "mssql.db_exists" [PyStr name] kwargs in
  let create_call :=
    Salt "mssql.db_create" [PyStr name]
      (("containment", containment)
       :: ("new_database_options", PyList (_normalize_options options))
       :: kwargs) in
  let created := answer create_call (after exists_call w) in
  truthy (answer exists_call w) = false ->
  truthy (opts_test h) = false ->
  dict_has "new_database_options" kwargs = false ->
  created <> PyBool true ->
  outcome_of (run (present h name containment options kwargs) w)
  = Returned (mk_ret name (Some false)
                ("Database " ++ name ++ " failed to be created: "
                   ++ py_str created) []).
Proof.
  intros exists_call create_call created E T K C.
  unfold present. step. fold exists_call. rewrite E, T, K. step.
  fold create_call. fold created.
  destruct created as [| [|] | | | |]; try reflexivity. now elim C.
Qed.

(** [absent] reports a false answer of [mssql.db_remove] as a failure *)
Lemma absent_reports_failed_remove (h : host_env) (name : string)
    (kwargs : dict) (w : World) :
  let exists_call := Salt "mssql.db_exists" [PyStr name] [] in
  truthy (answer exists_call w) = true ->
  truthy (opts_test h) = false ->
  truthy (answer (Salt "mssql.db_remove" [PyStr name] kwargs)
            (after exists_call w)) = false ->
  outcome_of (run (absent h name kwargs) w)
  = Returned (mk_ret name (Some false)
                ("Database " ++ name ++ " failed to be removed") []).
Proof.
  intros exists_call E T R.
  unfold absent. step. fold exists_call. rewrite E, T. cbn [negb]. step.
  rewrite R. reflexivity.
Qed.

(** the poll of [formatted] always returns, with success or with the
    failure report, after at most [attempts] waits *)
Lemma formatted_poll_returns (attempts : nat) (i : Z) (name fs_type : string)
    (w : World) :
  exists r,
    outcome_of (run (formatted_poll attempts i name fs_type) w) = Returned r /\
    (result r = Some true
     \/ r = mk_ret name (Some false) ("Failed to format " ++ name) []) /\
    (length (filter (fun c => match c with Sleep _ => true | _ => false end)
               (trace_of (run (formatted_poll attempts i name fs_type) w)))
     <= attempts)%nat.
Proof.
  revert i w. induction attempts as [| n IH]; intros i w.
  - eexists. cbn. repeat split; auto.
  - cbn [formatted_poll]. unfold _checkblk. step.
    destruct (py_eq _ (PyStr fs_type)).
    { eexists. cbn. repeat split; auto with arith. }
    destruct (py_eq _ (PyStr "")).
    2:{ eexists. cbn. repeat split; auto with arith. }
    step.
    match goal with
    | |- context [run (formatted_poll n ?j name fs_type) ?w1] =>
        destruct (IH j w1) as (r & O & R & L);
        destruct (run (formatted_poll n j name fs_type) w1) as [[o t] w2]
    end.
    unfold outcome_of, trace_of in *. cbn [fst snd] in *. subst o.
    exists r. cbn. repeat split; auto with arith.
Qed.

(** [formatted] returns in every case; a failure is reported with
    [result = False] and no changes *)
Lemma formatted_always_returns (h : host_env) (name fs_type : string)
    (force : pyval) (kwargs : dict) (w : World) :
  exists r,
    outcome_of (run (formatted h name fs_type force kwargs) w) = Returned r /\
    (result r = Some true \/ result r = None
     \/ (result r = Some false /\ changes r = [])).
Proof.
  unfold formatted, _checkblk. step.
  destruct (truthy (answer (OsPathExists name) w)); cbn [negb].
  2:{ eexists. split; [reflexivity |]. cbn. auto. }
  step.
  destruct (py_eq _ (PyStr fs_type)).
  { eexists. split; [reflexivity |]. cbn. auto. }
  step.
  destruct (truthy (answer (Which _) _)); cbn [negb].
  2:{ eexists. split; [reflexivity |]. cbn. auto. }
  destruct (truthy (opts_test h)).
  { eexists. split; [reflexivity |]. cbn. auto. }
  step.
  match goal with
  | |- context [run (formatted_poll 10 0 name fs_type) ?w1] =>
      destruct (formatted_poll_returns 10 0 name fs_type w1)
        as (r & O & [R | R] & _);
      destruct (run (formatted_poll 10 0 name fs_type) w1) as [[o t] w2]
  end; unfold outcome_of in *; cbn [fst snd] in *; subst o;
    exists r; (split; [reflexivity |]); [auto | subst r; cbn; auto].
Qed.

Lemma covers_unrecognised (report : pyval) (kwargs : dict) :
  existsb (fun kv => recognised (fst kv)) kwargs = false ->
  covers report kwargs = true.
Proof.
  unfold covers. induction kwargs as [| kv kwargs IH]; intros R;
    [reflexivity |].
  cbn [existsb forallb] in *. apply orb_false_iff in R as [R1 R2].
  rewrite (IH R2). unfold recognised in R1.
  destruct (assoc (fst kv) kwarg_map); [discriminate | reflexivity].
Qed.

(** [tuned] reports a false answer of [disk.tune] as a failure when no
    recognised option is declared *)
Lemma tuned_reports_failed_tune_without_options (h : host_env) (name : string)
    (kwargs : dict) (w : World) :
  salt_file_is_blkdev h = true ->
  truthy (opts_test h) = false ->
  existsb (fun kv => recognised (fst kv)) kwargs = false ->
  truthy (answer (tune_call name kwargs) (after (dump_call name) w)) = false ->
  exists r,
    outcome_of (run (tuned h name kwargs) w) = Returned r /\
    result r = Some false.
Proof.
  intros B T R F.
  destruct (tuned_returns h name kwargs w B T
              (covers_unrecognised _ kwargs R) (covers_unrecognised _ kwargs R))
    as (r & O & Rr & _).
  exists r. split; [exact O |]. now rewrite Rr, F.
Qed.

(** ** Further properties: [cimc] *)

Lemma append_assoc (a b c : string) : (a ++ b) ++ c = a ++ b ++ c.
Proof. induction a as [| x a IH]; simpl; [reflexivity | now rewrite IH]. Qed.

Lemma modify_once (k : pyval -> pyval) (dn inconfig pre post : string)
    (w : World) :
  inconfig = pre ++ dn ++ post ->
  exists pre post v,
    let c := set_config_modify dn (pre ++ dn ++ post) in
    run (prog_bind
           (host (Proxy "cimc.set_config_modify"
                    [PyStr dn; PyStr inconfig; PyBool false]))
           (fun r => Ret (k r))) w
    = (Returned v, [c], after c w).
Proof.
  intros ->. exists pre, post. eexists. cbv zeta.
  rewrite run_bind, run_host. reflexivity.
Qed.

Ltac embed_path pre :=
  change (host ?c) with (prog_bind (host c) (fun r => Ret ((fun v => v) r)));
  eapply (modify_once _ _ _ pre);
  unfold quoted, dq, backup_image_dn; rewrite ?append_assoc; cbn [append];
  reflexivity.

Ltac case_guard :=
  match goal with
  | |- context [truthy ?x] => destruct (truthy x) eqn:?
  | |- context [py_in ?x ?l] => destruct (py_in x l) eqn:?
  | |- context [py_eq ?x ?y] => destruct (py_eq x y) eqn:?
  end; cbn [negb orb andb existsb prog_bind].

Ltac refuse := eexists; reflexivity.

(** X1.  Every function of [cimc.py] that modifies the configuration either
    raises [CommandExecutionError] without contacting the proxy, exactly
    when a required parameter is missing or a checked enumerated value is
    not allowed, or issues exactly one [cimc.set_config_modify] call, with
    [False] as third argument, whose payload embeds the very object path
    passed as first argument. *)
Theorem setter_rejects_or_modifies_once (s : cimc_setter) (w : World) :
  if rejected s then
    exists msg,
      run (call_setter s) w = (Raised (CommandExecutionError msg), [], w)
  else
    exists pre post v,
      let c := set_config_modify (object_path s)
                 (pre ++ object_path s ++ post) in
      run (call_setter s) w = (Returned v, [c], after c w).
Proof.
  destruct s; unfold rejected, call_setter, object_path, missing.
  - unfold activate_backup_image. embed_path "<firmwareBootUnit dn='".
  - unfold create_user. repeat case_guard; try refuse.
    embed_path ("<aaaUser id=" ++ quoted (py_str uid)
                  ++ " accountStatus=" ++ quoted "active"
                  ++ " name=" ++ quoted (py_str username)
                  ++ " priv=" ++ quoted (py_str priv) ++ nl
                  ++ "    pwd=" ++ quoted (py_str password) ++ "  dn=" ++ dq).
  - unfold mount_share. do 3 (case_guard; try refuse).
    embed_path "<commVMediaMap dn='".
  - unfold reboot.
    embed_path ("<computeRackUnit adminPower=" ++ quoted "cycle-immediate"
                  ++ " dn=" ++ dq).
  - unfold set_hostname. case_guard; try refuse.
    cbn [bind Monad_prog].
    eapply (modify_once _ _ _ ("<mgmtIf dn=" ++ dq)).
    unfold quoted, dq; rewrite ?append_assoc; cbn [append]; reflexivity.
  - unfold set_logging_levels. cbn [bind Monad_prog].
    repeat case_guard; try refuse;
      embed_path ("<commSyslog dn=" ++ dq).
  - unfold set_ntp_server. embed_path ("<commNtpProvider dn=" ++ dq).
  - unfold set_power_configuration, py_in. cbn [bind Monad_prog existsb].
    repeat case_guard; try refuse;
      embed_path ("<biosVfResumeOnACPowerLoss" ++ nl ++ "    dn=" ++ dq).
  - unfold set_syslog_server, py_in. cbn [bind Monad_prog existsb].
    repeat case_guard; try refuse.
    + embed_path ("<commSyslogClient name='primary' adminState='enabled'  hostname='"
                    ++ py_str server ++ "'" ++ nl ++ "        dn='").
    + embed_path ("<commSyslogClient name='secondary' adminState='enabled'  hostname='"
                    ++ py_str server ++ "'" ++ nl ++ "        dn='").
  - unfold set_user. case_guard; try refuse.
    match goal with
    | |- context [PyStr ("<aaaUser id=" ++ quoted (py_str uid) ++ ?conf ++ _)] =>
        embed_path ("<aaaUser id=" ++ quoted (py_str uid) ++ conf
                      ++ " dn=" ++ dq)
    end.
  - unfold tftp_update_bios. repeat case_guard; try refuse.
    embed_path "<firmwareUpdatable adminState='trigger' dn='".
  - unfold tftp_update_cimc. repeat case_guard; try refuse.
    embed_path "<firmwareUpdatable adminState='trigger' dn='".
Qed.

(** X2.  [set_hostname], given a hostname, issues one modify call and
    returns a boolean whatever the proxy answers: [True] exactly when the
    answer holds ["modified"] at [outConfig.mgmtIf[0].status], [False] when
    it holds anything else there or when a subscription on the way fails. *)
Theorem set_hostname_reports_modified (hostname : pyval) (w : World) :
  truthy hostname = true ->
  let c := set_config_modify "sys/rack-unit-1/mgmt/if-1"
             ("<mgmtIf dn=" ++ quoted "sys/rack-unit-1/mgmt/if-1"
                ++ " hostname=" ++ quoted (py_str hostname) ++ " ></mgmtIf>") in
  run (set_hostname hostname) w
  = (Returned
       (PyBool (match py_path (answer c w) status_path with
                | inr status => py_eq status (PyStr "modified")
                | inl _ => false
                end)),
     [c], after c w).
Proof.
  intros H c. subst c. unfold set_hostname, set_config_modify.
  rewrite H. cbn [negb]. step.
  unfold status_path, try_except. cbn [py_path].
  destruct (py_getitem (answer _ w) (PyStr "outConfig")) as [e | a];
    [reflexivity |].
  destruct (py_getitem a (PyStr "mgmtIf")) as [e | b]; [reflexivity |].
  destruct (py_getitem b (PyInt 0)) as [e | d]; [reflexivity |].
  destruct (py_getitem d (PyStr "status")) as [e | st]; [reflexivity |].
  destruct (py_eq st (PyStr "modified")); reflexivity.
Qed.


(** X4.  [mount_share] sends credentials only when both a user name and a
    password are given: with one of them missing the request is the one
    without credentials, and with both (and the required parameters) the
    payload of the single modify call holds the mount options with both. *)
Theorem mount_share_needs_both_credentials
    (name remote_share remote_file mount_type username password : pyval)
    (w : World) :
  (truthy username && truthy password = false ->
   mount_share name remote_share remote_file mount_type username password
   = mount_share name remote_share remote_file mount_type PyNone PyNone) /\
  (truthy name && truthy remote_share && truthy remote_file = true ->
   truthy username && truthy password = true ->
   exists pre post,
     let c := set_config_modify
                ("sys/svc-ext/vmedia-svc/vmmap-" ++ py_str name)
                (pre ++ " mountOptions='username=" ++ py_str username
                   ++ ",password=" ++ py_str password ++ "'" ++ post) in
     run (mount_share name remote_share remote_file mount_type username
            password) w
     = (Returned (answer c w), [c], after c w)).
Proof.
  split.
  - intros H. unfold mount_share. rewrite H. reflexivity.
  - intros R C. unfold mount_share. rewrite C.
    apply andb_true_iff in R as [R R3]. apply andb_true_iff in R as [R1 R2].
    rewrite R1, R2, R3. cbn [negb].
    exists ("<commVMediaMap dn='sys/svc-ext/vmedia-svc/vmmap-" ++ py_str name
              ++ "' map='" ++ py_str mount_type ++ "'").
    eexists. cbv zeta. rewrite run_host. unfold set_config_modify.
    rewrite ?append_assoc. cbn [append]. rewrite ?append_assoc.
    reflexivity.
Qed.

Lemma getitem_str_errors (o : pyval) (k : string) (e : exn) :
  py_getitem o (PyStr k) = inl e ->
  (is_dict o = true /\ e = KeyError) \/ (is_dict o = false /\ e = TypeError).
Proof.
  destruct o as [| b | z | s | l | d]; simpl; intros H;
    try (right; split; [reflexivity | congruence]).
  left. destruct (dict_get k d); [discriminate |].
  split; [reflexivity | congruence].
Qed.

(** X5.  [cimc.__virtual__] loads the module exactly when the minion is a
    proxy and [__opts__["proxy"]["proxytype"]] is ["cimc"].  A missing key
    only keeps the module from loading; the one exception that escapes is
    the [TypeError] of subscripting something that is not a dictionary,
    and the options are not read at all on a minion that is no proxy. *)
Theorem cimc_virtual_loads_iff (is_proxy : bool) (opts : pyval) :
  (cimc__virtual__ is_proxy opts = inr (inl "cimc") <->
   is_proxy = true /\
   exists proxy proxytype,
     py_getitem opts (PyStr "proxy") = inr proxy /\
     py_getitem proxy (PyStr "proxytype") = inr proxytype /\
     py_eq proxytype (PyStr "cimc") = true) /\
  (forall e,
     cimc__virtual__ is_proxy opts = inl e <->
     e = TypeError /\ is_proxy = true /\
     (is_dict opts = false \/
      exists proxy,
        py_getitem opts (PyStr "proxy") = inr proxy /\ is_dict proxy = false /\
        exists e', py_getitem proxy (PyStr "proxytype") = inl e')) /\
  (is_proxy = false -> forall opts',
     cimc__virtual__ is_proxy opts = cimc__virtual__ is_proxy opts').
Proof.
  unfold cimc__virtual__. split; [split | split; [intros e; split |]].
  - destruct is_proxy; [| discriminate].
    destruct (py_getitem opts (PyStr "proxy")) as [[] | proxy];
      try discriminate.
    destruct (py_getitem proxy (PyStr "proxytype")) as [[] | pt] eqn:E;
      try discriminate.
    destruct (py_eq pt (PyStr "cimc")) eqn:Q; [| discriminate].
    intros _. split; [reflexivity |]. exists proxy, pt. auto.
  - intros (-> & proxy & pt & -> & -> & ->). reflexivity.
  - destruct is_proxy; [| discriminate].
    destruct (py_getitem opts (PyStr "proxy")) as [e0 | proxy] eqn:E.
    + destruct (getitem_str_errors _ _ _ E) as [[_ ->] | [D ->]];
        [discriminate |].
      intros [= <-]. auto.
    + destruct (py_getitem proxy (PyStr "proxytype")) as [e0 | pt] eqn:F.
      * destruct (getitem_str_errors _ _ _ F) as [[_ ->] | [D ->]];
          [discriminate |].
        intros [= <-]. split; [reflexivity |]. split; [reflexivity |].
        right. exists proxy. repeat split; auto. now exists TypeError.
      * destruct (py_eq pt (PyStr "cimc")); discriminate.
  - intros (-> & -> & [D | (proxy & E & D & e' & F)]).
    + destruct (py_getitem opts (PyStr "proxy")) as [e0 | proxy] eqn:E.
      * destruct (getitem_str_errors _ _ _ E) as [[D' _] | [_ ->]];
          [congruence | reflexivity].
      * destruct opts; try discriminate; simpl in E; discriminate.
    + rewrite E, F.
      destruct (getitem_str_errors _ _ _ F) as [[D' _] | [_ ->]];
        [congruence | reflexivity].
  - intros -> opts'. reflexivity.
Qed.

(** ** Further properties: [blockdev.formatted] *)

Lemma formatted_poll_shape (attempts : nat) (i : Z) (name fs_type : string)
    (w : World) :
  let r := run (formatted_poll attempts i name fs_type) w in
  (outcome_of r = Returned (poll_failed name)
   \/ outcome_of r = Returned (poll_succeeded name fs_type)) /\
  (count is_sleep (trace_of r) <= attempts)%nat /\
  (count is_blkid (trace_of r) <= attempts)%nat /\
  applied (trace_of r) = false /\
  forallb three_seconds (trace_of r) = true.
Proof.
  revert i w. induction attempts as [| n IH]; intros i w.
  - cbn. auto.
  - cbn [formatted_poll]. unfold _checkblk. step.
    match goal with
    | |- context [py_eq ?v (PyStr fs_type)] =>
        destruct (py_eq v (PyStr fs_type)) eqn:E;
        [apply py_eq_str in E; rewrite E |]
    end.
    { cbn. repeat split; auto with arith. }
    destruct (py_eq _ (PyStr "")).
    2:{ cbn. repeat split; auto with arith. }
    step.
    match goal with
    | |- context [run (formatted_poll n ?j name fs_type) ?w1] =>
        destruct (IH j w1) as (O & S & B & A & T);
        destruct (run (formatted_poll n j name fs_type) w1) as [[o t] w2]
    end.
    unfold outcome_of, trace_of, count, applied in *. cbn [fst snd] in *.
    cbn. repeat split; auto with arith.
Qed.

Lemma formatted_trace_bounds (h : host_env)
    (name fs_type : string) (force : pyval) (kwargs : dict) (w : World) :
  let t := trace_of (run (formatted h name fs_type force kwargs) w) in
  (count is_sleep t <= 10)%nat /\
  forallb three_seconds t = true /\
  (count is_blkid t <= 11)%nat /\
  (count is_apply t <= 1)%nat.
Proof.
  unfold formatted, _checkblk. step.
  destruct (truthy (answer (OsPathExists name) w)); cbn [negb].
  2:{ cbn. repeat split; auto with arith. }
  step.
  destruct (py_eq _ (PyStr fs_type)).
  { cbn. repeat split; auto with arith. }
  step.
  destruct (truthy (answer (Which _) _)); cbn [negb].
  2:{ cbn. repeat split; auto with arith. }
  destruct (truthy (opts_test h)).
  { cbn. repeat split; auto with arith. }
  step.
  match goal with
  | |- context [run (formatted_poll 10 0 name fs_type) ?w1] =>
      destruct (formatted_poll_shape 10 0 name fs_type w1)
        as (_ & S & B & A & T);
      destruct (run (formatted_poll 10 0 name fs_type) w1) as [[o t] w2]
  end.
  unfold trace_of, count, applied in *. cbn [fst snd] in *. cbn.
  repeat split; auto with arith.
  clear - A. induction t as [| c t IH]; [auto |].
  simpl in *. apply orb_false_iff in A as [A1 A2]. rewrite A1. auto.
Qed.

(** X6.  [formatted] never waits without bound: in any run it sleeps at
    most ten times, three seconds each time, queries [blkid] at most
    eleven times and calls [disk.format] at most once. *)
Theorem formatted_waits_at_most_ten_times (h : host_env)
    (name fs_type : string) (force : pyval) (kwargs : dict) (w : World) :
  let t := trace_of (run (formatted h name fs_type force kwargs) w) in
  (count is_sleep t <= 10)%nat /\
  forallb three_seconds t = true /\
  (count is_blkid t <= 11)%nat /\
  (count is_apply t <= 1)%nat.
Proof. apply formatted_trace_bounds. Qed.

Lemma formatted_poll_blank (attempts : nat) (i : Z) (name fs_type : string)
    (w : World) :
  fs_type <> "" ->
  (forall w', truthy (answer (blkid_call name) w') = false) ->
  let r := run (formatted_poll attempts i name fs_type) w in
  outcome_of r = Returned (poll_failed name) /\
  count is_sleep (trace_of r) = attempts /\
  count is_blkid (trace_of r) = attempts /\
  applied (trace_of r) = false.
Proof.
  intros N B. revert i w. induction attempts as [| n IH]; intros i w.
  - cbn. auto.
  - cbn [formatted_poll]. unfold _checkblk. step.
    unfold blkid_call in B. rewrite B. cbn [negb].
    replace (py_eq (PyStr "") (PyStr fs_type)) with false
      by (symmetry; apply String.eqb_neq; congruence).
    cbn [py_eq String.eqb]. step.
    match goal with
    | |- context [run (formatted_poll n ?j name fs_type) ?w1] =>
        destruct (IH j w1) as (O & S & C & A);
        destruct (run (formatted_poll n j name fs_type) w1) as [[o t] w2]
    end.
    unfold outcome_of, trace_of, count, applied in *. cbn [fst snd] in *.
    cbn. repeat split; auto.
Qed.

(** X7.  When the device exists, [mkfs.<fs_type>] is installed and [blkid]
    keeps reporting no file system, [formatted] (outside dry-run, for a
    non-empty [fs_type]) formats once, polls ten times with a sleep after
    each poll, and then reports [Failed to format] with [result = False]
    and no changes. *)
Theorem formatted_gives_up_after_ten_polls (h : host_env)
    (name fs_type : string) (force : pyval) (kwargs : dict) (w : World) :
  truthy (opts_test h) = false ->
  fs_type <> "" ->
  truthy (answer (OsPathExists name) w) = true ->
  (forall w', truthy (answer (blkid_call name) w') = false) ->
  (forall w', truthy (answer (Which ("mkfs." ++ fs_type)) w') = true) ->
  let r := run (formatted h name fs_type force kwargs) w in
  outcome_of r = Returned (poll_failed name) /\
  count is_sleep (trace_of r) = 10%nat /\
  count is_blkid (trace_of r) = 11%nat /\
  count is_apply (trace_of r) = 1%nat.
Proof.
  intros T N P B M. unfold formatted, _checkblk. step.
  rewrite P. cbn [negb]. step.
  pose proof B as B'. unfold blkid_call in B'. rewrite B'. cbn [negb].
  replace (py_eq (PyStr "") (PyStr fs_type)) with false
    by (symmetry; apply String.eqb_neq; congruence).
  step. rewrite M, T. cbn [negb]. step.
  match goal with
  | |- context [run (formatted_poll 10 0 name fs_type) ?w1] =>
      destruct (formatted_poll_blank 10 0 name fs_type w1 N B)
        as (O & S & C & A);
      destruct (run (formatted_poll 10 0 name fs_type) w1) as [[o t] w2]
  end.
  unfold outcome_of, trace_of, count, applied in *. cbn [fst snd] in *.
  cbn. rewrite S, C. repeat split; auto.
  clear - A. induction t as [| c t IH]; [auto |].
  simpl in *. apply orb_false_iff in A as [A1 A2]. rewrite A1. auto.
Qed.

(** X8.  [formatted] always returns; it reports changes only after it has
    called [disk.format], always with [result = True], and the old value it
    reports is then the new file system, not the one found before. *)
Theorem formatted_reports_new_as_old (h : host_env) (name fs_type : string)
    (force : pyval) (kwargs : dict) (w : World) :
  let r := run (formatted h name fs_type force kwargs) w in
  exists ret,
    outcome_of r = Returned ret /\
    (changes ret = []
     \/ (ret = poll_succeeded name fs_type /\ applied (trace_of r) = true)).
Proof.
  unfold formatted, _checkblk. step.
  destruct (truthy (answer (OsPathExists name) w)); cbn [negb].
  2:{ eexists. split; [reflexivity |]. now left. }
  step.
  destruct (py_eq _ (PyStr fs_type)).
  { eexists. split; [reflexivity |]. now left. }
  step.
  destruct (truthy (answer (Which _) _)); cbn [negb].
  2:{ eexists. split; [reflexivity |]. now left. }
  destruct (truthy (opts_test h)).
  { eexists. split; [reflexivity |]. now left. }
  step.
  match goal with
  | |- context [run (formatted_poll 10 0 name fs_type) ?w1] =>
      destruct (formatted_poll_shape 10 0 name fs_type w1)
        as ([O | O] & _);
      destruct (run (formatted_poll 10 0 name fs_type) w1) as [[o t] w2]
  end; unfold outcome_of, trace_of in *; cbn [fst snd] in *; subst o;
    eexists; (split; [reflexivity |]); [now left | right].
  split; reflexivity.
Qed.

(** ** Further properties: [blockdev.tuned] *)

Lemma tuned_returns_report (h : host_env) (name : string) (kwargs : dict)
    (w : World) :
  salt_file_is_blkdev h = true ->
  truthy (opts_test h) = false ->
  let before := answer (dump_call name) w in
  let after_tune := answer (tune_call name kwargs) (after (dump_call name) w) in
  covers before kwargs = true ->
  covers after_tune kwargs = true ->
  truthy after_tune = true ->
  outcome_of (run (tuned h name kwargs) w)
  = Returned
      (match fold_left (record_entry before after_tune) kwargs [] with
       | [] =>
           mk_ret name (Some true)
             ("Block device " ++ name ++ " already in correct state") []
       | changeset =>
           mk_ret name (Some true)
             ("Block device " ++ name ++ " successfully modified ") changeset
       end).
Proof.
  intros B T before after_tune Cb Ca F. unfold tuned. rewrite B, T.
  cbn [negb]. step.
  fold (dump_call name). fold (tune_call name kwargs).
  fold before. fold after_tune.
  rewrite (tuned_loop_entries before after_tune kwargs [] Cb Ca).
  cbn [lift]. step. rewrite F.
  destruct (fold_left (record_entry before after_tune) kwargs []);
    reflexivity.
Qed.

Lemma fold_record_unchanged (before after_tune : pyval) (kwargs : dict) :
  unchanged before after_tune kwargs = true ->
  forall changeset,
    fold_left (record_entry before after_tune) kwargs changeset = changeset.
Proof.
  unfold unchanged.
  induction kwargs as [| kv kwargs IH]; cbn [forallb fold_left]; intros H cs;
    [reflexivity |].
  apply andb_true_iff in H as [H1 H2]. rewrite IH by exact H2.
  unfold record_entry, tuned_entry.
  destruct (assoc (fst kv) kwarg_map) as [sw |]; [| reflexivity].
  now rewrite H1.
Qed.

(** X9.  [tuned] never compares the device with the declared values: when
    the report after the tune call agrees with the report before it on
    every switch read, the function returns [result = True] with the
    comment [already in correct state] and no changes, whatever values
    were declared. *)
Theorem tuned_unchanged_reports_correct_state (h : host_env) (name : string)
    (kwargs : dict) (w : World) :
  salt_file_is_blkdev h = true ->
  truthy (opts_test h) = false ->
  let before := answer (dump_call name) w in
  let after_tune := answer (tune_call name kwargs) (after (dump_call name) w) in
  covers before kwargs = true ->
  covers after_tune kwargs = true ->
  truthy after_tune = true ->
  unchanged before after_tune kwargs = true ->
  outcome_of (run (tuned h name kwargs) w)
  = Returned (mk_ret name (Some true)
                ("Block device " ++ name ++ " already in correct state") []).
Proof.
  intros B T before after_tune Cb Ca F U.
  rewrite (tuned_returns_report h name kwargs w B T Cb Ca F).
  fold before after_tune.
  now rewrite (fold_record_unchanged before after_tune kwargs U).
Qed.

Lemma dict_get_set (k k' : string) (v : pyval) (d : dict) :
  dict_get k (dict_set k' v d)
  = if k' =? k then Some v else dict_get k d.
Proof.
  destruct (k' =? k) eqn:E.
  - apply String.eqb_eq in E. subst. apply dict_get_set_same.
  - apply String.eqb_neq in E. now apply dict_get_set_other.
Qed.

Lemma tuned_loop_keys (before after_tune : pyval) (kwargs cs0 cs : dict) :
  tuned_loop before after_tune kwargs cs0 = inr cs ->
  forall key v,
    dict_get key cs = Some v ->
    dict_get key cs0 = Some v
    \/ (recognised key = true /\ In key (map fst kwargs) /\
        exists old new,
          v = PyStr ("Changed from " ++ old ++ " to " ++ new)).
Proof.
  revert cs0. induction kwargs as [| [k d] kwargs IH]; intros cs0 L key v G.
  - cbn in L. injection L as <-. now left.
  - cbn [tuned_loop] in L.
    destruct (tuned_key before after_tune k d cs0) as [e | cs1] eqn:K;
      [discriminate |].
    destruct (IH cs1 L key v G) as [G1 | (R & I & E)].
    2:{ right. split; [exact R |]. split; [right; exact I | exact E]. }
    unfold tuned_key in K. unfold recognised.
    destruct (assoc k kwarg_map) as [sw |] eqn:A.
    2:{ injection K as <-. now left. }
    destruct (py_getitem before (PyStr sw)) as [e | c]; [discriminate |].
    destruct (py_getitem after_tune (PyStr sw)) as [e | n]; [discriminate |].
    destruct (negb (py_eq c n)).
    2:{ injection K as <-. now left. }
    destruct (tuned_report k d c n) as [old new].
    injection K as <-. rewrite dict_get_set in G1.
    destruct (k =? key) eqn:E.
    + apply String.eqb_eq in E. subst key. injection G1 as <-.
      right. rewrite A. split; [reflexivity |]. split; [now left |].
      now exists (py_str old), (py_str new).
    + now left.
Qed.

(** X10.  Whatever [tuned] returns, every key of its changes is one of the
    four recognised options and was declared in the call, and its value is
    a text of the form [Changed from ... to ...]; an option that is not
    recognised never shows up. *)
Theorem tuned_changes_are_declared_options (h : host_env) (name : string)
    (kwargs : dict) (w : World) (r : state_ret) :
  outcome_of (run (tuned h name kwargs) w) = Returned r ->
  forall key v,
    dict_get key (changes r) = Some v ->
    recognised key = true /\ In key (map fst kwargs) /\
    exists old new, v = PyStr ("Changed from " ++ old ++ " to " ++ new).
Proof.
  unfold tuned.
  destruct (salt_file_is_blkdev h); cbn [negb].
  2:{ cbn. intros [= <-] key v G. discriminate. }
  destruct (truthy (opts_test h)).
  { cbn. intros [= <-] key v G. discriminate. }
  step.
  destruct (tuned_loop (answer (Salt "disk.dump" [PyStr name] []) w)
              (answer (Salt "disk.tune" [PyStr name] kwargs)
                 (after (Salt "disk.dump" [PyStr name] []) w)) kwargs [])
    as [e | cs] eqn:L; cbn [lift]; step.
  { cbn. discriminate. }
  pose proof (tuned_loop_keys _ _ _ _ _ L) as K.
  destruct (truthy _).
  - destruct cs as [| kv cs].
    + cbn. intros [= <-] key v G. discriminate.
    + cbn. intros [= <-] key v G. cbn [changes] in G.
      destruct (K key v G) as [G0 | Q]; [discriminate | exact Q].
  - cbn. intros [= <-] key v G. discriminate.
Qed.

Lemma tuned_reports_entry (h : host_env) (name : string) (kwargs : dict)
    (w : World) (key : string) (declared : pyval) :
  salt_file_is_blkdev h = true ->
  truthy (opts_test h) = false ->
  NoDup (map fst kwargs) ->
  In (key, declared) kwargs ->
  recognised key = true ->
  let before := answer (dump_call name) w in
  let after_tune := answer (tune_call name kwargs) (after (dump_call name) w) in
  covers before kwargs = true ->
  covers after_tune kwargs = true ->
  exists r,
    outcome_of (run (tuned h name kwargs) w) = Returned r /\
    result r = Some true /\
    dict_get key (changes r) = tuned_entry before after_tune key declared.
Proof.
  intros B T ND I R before after_tune Cb Ca.
  destruct (tuned_returns h name kwargs w B T Cb Ca) as (r & O & Rr & C).
  fold before after_tune in Rr, C.
  assert (Tr : truthy after_tune = true).
  { unfold recognised in R.
    destruct (assoc key kwarg_map) as [sw |] eqn:A; [| discriminate].
    apply (has_value_truthy after_tune sw).
    unfold covers in Ca. rewrite forallb_forall in Ca.
    specialize (Ca _ I). cbn [fst] in Ca. now rewrite A in Ca. }
  exists r. split; [exact O |]. split; [now rewrite Rr, Tr |].
  rewrite C. now apply fold_entries_at.
Qed.

(** C4 (amended).  In [tuned], for an option declared with a boolean, the
    value of the report before the tune call and the value in the answer
    of the tune call are compared as they are; when they differ, both are
    normalised in the same way (["1"] is [True], anything else [False],
    negated for [read-write]) before the change is reported.  The declared
    value is not compared: the report is the same whichever boolean was
    declared.  When both values are ["1"] or ["0"], comparing them as they
    are is comparing them normalised. *)
Theorem tuned_compares_reports_then_normalizes (h : host_env) (name : string)
    (kwargs : dict) (w : World) (key switch : string) (b : bool)
    (cur new : pyval) :
  salt_file_is_blkdev h = true ->
  truthy (opts_test h) = false ->
  NoDup (map fst kwargs) ->
  In (key, PyBool b) kwargs ->
  assoc key kwarg_map = Some switch ->
  let before := answer (dump_call name) w in
  let after_tune := answer (tune_call name kwargs) (after (dump_call name) w) in
  covers before kwargs = true ->
  covers after_tune kwargs = true ->
  py_getitem before (PyStr switch) = inr cur ->
  py_getitem after_tune (PyStr switch) = inr new ->
  exists r,
    outcome_of (run (tuned h name kwargs) w) = Returned r /\
    dict_get key (changes r)
    = (if py_eq cur new then None
       else Some (PyStr ("Changed from " ++ py_str (shown key cur) ++ " to "
                           ++ py_str (shown key new)))) /\
    (is_flag cur = true -> is_flag new = true ->
     py_eq cur new = Bool.eqb (flag cur) (flag new)).
Proof.
  intros B T ND I A before after_tune Cb Ca Gb Ga.
  assert (R : recognised key = true) by (unfold recognised; now rewrite A).
  destruct (tuned_reports_entry h name kwargs w key (PyBool b)
              B T ND I R Cb Ca) as (r & O & _ & E).
  exists r. split; [exact O |]. split.
  - rewrite E. fold before after_tune.
    unfold tuned_entry, value_at, tuned_report, shown, flag.
    rewrite A, Gb, Ga.
    destruct (py_eq cur new); [reflexivity |].
    destruct (key =? "read-write"); reflexivity.
  - intros F1 F2.
    destruct (is_flag_cases _ F1) as [-> | ->];
      destruct (is_flag_cases _ F2) as [-> | ->]; reflexivity.
Qed.

(** X11.  In [tuned], [read-write] declared with something that is not a
    boolean (a string such as ["True"], a number) is reported wrongly: the
    values of [getro], non-empty strings such as ["1"] and ["0"], are
    negated as they are, and a change is shown as
    [Changed from False to False]. *)
Theorem read_write_not_boolean_reports_false (h : host_env) (name : string)
    (kwargs : dict) (w : World) (declared ro ro' : pyval) :
  salt_file_is_blkdev h = true ->
  truthy (opts_test h) = false ->
  NoDup (map fst kwargs) ->
  In ("read-write", declared) kwargs ->
  is_bool declared = false ->
  let before := answer (dump_call name) w in
  let after_tune := answer (tune_call name kwargs) (after (dump_call name) w) in
  covers before kwargs = true ->
  covers after_tune kwargs = true ->
  py_getitem before (PyStr "getro") = inr ro ->
  py_getitem after_tune (PyStr "getro") = inr ro' ->
  truthy ro = true -> truthy ro' = true ->
  py_eq ro ro' = false ->
  exists r,
    outcome_of (run (tuned h name kwargs) w) = Returned r /\
    dict_get "read-write" (changes r)
    = Some (PyStr "Changed from False to False").
Proof.
  intros B T ND I NB before after_tune Cb Ca Gb Ga Tb Ta D.
  destruct (tuned_reports_entry h name kwargs w "read-write" declared
              B T ND I eq_refl Cb Ca) as (r & O & _ & E).
  exists r. split; [exact O |]. rewrite E.
  fold before after_tune.
  unfold tuned_entry, value_at, tuned_report.
  change (assoc "read-write" kwarg_map) with (Some "getro").
  cbv iota. rewrite Gb, Ga, D.
  change ("read-write" =? "read-write") with true.
  destruct declared; try discriminate; cbv iota beta; rewrite Tb, Ta;
    reflexivity.
Qed.

(** X12.  In [tuned], an option other than [read-write] that is declared
    with something that is not a boolean (a read-ahead size, say) is
    reported with the values of the two reports as they are, and not at
    all when they are equal. *)
Theorem tuned_reports_values_as_they_are (h : host_env) (name : string)
    (kwargs : dict) (w : World) (key switch : string)
    (declared cur new : pyval) :
  salt_file_is_blkdev h = true ->
  truthy (opts_test h) = false ->
  NoDup (map fst kwargs) ->
  In (key, declared) kwargs ->
  assoc key kwarg_map = Some switch ->
  key <> "read-write" ->
  is_bool declared = false ->
  let before := answer (dump_call name) w in
  let after_tune := answer (tune_call name kwargs) (after (dump_call name) w) in
  covers before kwargs = true ->
  covers after_tune kwargs = true ->
  py_getitem before (PyStr switch) = inr cur ->
  py_getitem after_tune (PyStr switch) = inr new ->
  exists r,
    outcome_of (run (tuned h name kwargs) w) = Returned r /\
    dict_get key (changes r)
    = if py_eq cur new then None
      else Some (PyStr ("Changed from " ++ py_str cur ++ " to "
                          ++ py_str new)).
Proof.
  intros B T ND I A K NB before after_tune Cb Ca Gb Ga.
  assert (R : recognised key = true) by (unfold recognised; now rewrite A).
  destruct (tuned_reports_entry h name kwargs w key declared
              B T ND I R Cb Ca) as (r & O & _ & E).
  exists r. split; [exact O |]. rewrite E.
  fold before after_tune.
  unfold tuned_entry, value_at, tuned_report. rewrite A, Gb, Ga.
  apply String.eqb_neq in K. rewrite K.
  destruct (py_eq cur new); [reflexivity |].
  destruct declared; try discriminate; reflexivity.
Qed.

(** ** Further properties: [mssql_database] *)

(** X13.  [present], when the database is missing and it is not a dry
    run, succeeds exactly when [mssql.db_create] answers [True] itself:
    then the changes hold [Present] under the database's name; any other
    answer, a non-empty (true) error string included, gives
    [result = False], no changes, and a comment that ends with the
    answer. *)
Theorem present_succeeds_only_on_true (h : host_env) (name : string)
    (containment options : pyval) (kwargs : dict) (w : World) :
  let exists_call := Salt "mssql.db_exists" [PyStr name] kwargs in
  let create_call :=
    Salt "mssql.db_create" [PyStr name]
      (("containment", containment)
       :: ("new_database_options", PyList (_normalize_options options))
       :: kwargs) in
  let created := answer create_call (after exists_call w) in
  truthy (answer exists_call w) = false ->
  truthy (opts_test h) = false ->
  dict_has "new_database_options" kwargs = false ->
  exists r,
    run (present h name containment options kwargs) w
    = (Returned r, [exists_call; create_call],
       after create_call (after exists_call w)) /\
    (result r = Some true <-> created = PyBool true) /\
    (created = PyBool true -> changes r = [(name, PyStr "Present")]) /\
    (created <> PyBool true ->
     r = mk_ret name (Some false)
           ("Database " ++ name ++ " failed to be created: "
              ++ py_str created) []).
Proof.
  intros exists_call create_call created E T K.
  unfold present. step. fold exists_call. rewrite E, T, K. step.
  fold create_call. fold created.
  destruct created as [| [|] | | | |]; eexists; (split; [reflexivity |]);
    cbn [result changes]; repeat split; try congruence; try discriminate;
    intros N; try reflexivity; now elim N.
Qed.

(** X14.  [absent], when the database exists and it is not a dry run,
    takes any true answer of [mssql.db_remove] for success (an error
    string would count), with [Absent] under the database's name in the
    changes, and a false answer for failure, with no changes.  It asks
    whether the database exists without the connection arguments that it
    passes to [mssql.db_remove]. *)
Theorem absent_succeeds_on_any_true_answer (h : host_env) (name : string)
    (kwargs : dict) (w : World) :
  let exists_call := Salt "mssql.db_exists" [PyStr name] [] in
  let remove_call := Salt "mssql.db_remove" [PyStr name] kwargs in
  let removed := answer remove_call (after exists_call w) in
  truthy (answer exists_call w) = true ->
  truthy (opts_test h) = false ->
  run (absent h name kwargs) w
  = (Returned
       (if truthy removed then
          mk_ret name (Some true) ("Database " ++ name ++ " has been removed")
            [(name, PyStr "Absent")]
        else
          mk_ret name (Some false)
            ("Database " ++ name ++ " failed to be removed") []),
     [exists_call; remove_call], after remove_call (after exists_call w)).
Proof.
  intros exists_call remove_call removed E T.
  unfold absent. step. fold exists_call. rewrite E, T. cbn [negb]. step.
  fold remove_call. fold removed.
  destruct (truthy removed); reflexivity.
Qed.

(** X15.  No state function calls an apply function more than once in a
    run, whatever the host answers and also when the run ends with an
    exception. *)
Theorem state_functions_apply_at_most_once (h : host_env) (f : state_fn)
    (w : World) :
  (count is_apply (trace_of (run (call_state h f) w)) <= 1)%nat.
Proof.
  destruct f as [n kw | n fs force kw | n c o kw | n kw]; unfold call_state.
  - unfold tuned.
    destruct (salt_file_is_blkdev h); cbn [negb]; [| cbn; auto].
    destruct (truthy (opts_test h)); [cbn; auto |].
    step.
    destruct (tuned_loop _ _ kw []) as [e | cs]; cbn [lift]; step;
      [cbn; auto |].
    destruct (truthy _); [destruct cs |]; cbn; auto.
  - apply formatted_trace_bounds.
  - unfold present. step.
    destruct (truthy (answer _ w)); [cbn; auto |].
    destruct (truthy (opts_test h)); [cbn; auto |].
    destruct (dict_has _ kw); [cbn; auto |].
    step. destruct (answer _ (after _ w)) as [| [|] | | | |]; cbn; auto.
  - unfold absent. step.
    destruct (truthy (answer _ w)); cbn [negb]; [| cbn; auto].
    destruct (truthy (opts_test h)); [cbn; auto |].
    step. destruct (truthy _); cbn; auto.
Qed.

(** ** Further properties: [mssql_database._normalize_options] *)

Lemma starts_with_str_app (a b : list pyval) :
  starts_with_str a = true -> starts_with_str b = true ->
  starts_with_str (a ++ b) = true.
Proof. destruct a; simpl; auto. Qed.

Lemma normalize_starts_with_str :
  forall o, starts_with_str (_normalize_options o) = true.
Proof.
  fix F 1. intros o. destruct o as [| b | z | s | l | d]; try reflexivity.
  - destruct l as [| x l]; [reflexivity |].
    destruct x as [| b | z | s | l0 | d]; try reflexivity.
    change (_normalize_options (PyList (PyDict d :: l)))
      with (key_value_strings (PyDict d) ++ flat_map _normalize_options l)%list.
    apply starts_with_str_app.
    + destruct d; reflexivity.
    + revert l. fix G 1. intros l. destruct l as [| y l]; [reflexivity |].
      cbn [flat_map]. apply starts_with_str_app; [apply F | apply G].
  - destruct d; reflexivity.
Qed.

(** X16.  Normalising twice is normalising once: the result of
    [_normalize_options], for any input at all, is empty or begins with a
    string, so that [_normalize_options] returns it unchanged. *)
Theorem _normalize_options_idempotent (options : pyval) :
  starts_with_str (_normalize_options options) = true /\
  _normalize_options (PyList (_normalize_options options))
  = _normalize_options options.
Proof.
  pose proof (normalize_starts_with_str options) as H.
  split; [exact H |].
  destruct (_normalize_options options) as [| x l]; [reflexivity |].
  destruct x; try discriminate. reflexivity.
Qed.

(** X17.  In a list that begins with a dictionary, an element that is
    neither a dictionary nor a list (a plain string, a number, [None]) is
    dropped without notice. *)
Theorem _normalize_options_drops_scalars (d : dict) (l : list pyval) :
  _normalize_options (PyList (PyDict d :: l))
  = _normalize_options
      (PyList (PyDict d :: filter (fun x => is_dict x || is_list x) l)).
Proof.
  change (key_value_strings (PyDict d) ++ flat_map _normalize_options l
          = key_value_strings (PyDict d)
              ++ flat_map _normalize_options
                   (filter (fun x => is_dict x || is_list x) l))%list.
  f_equal. induction l as [| x l IH]; [reflexivity |].
  cbn [filter flat_map]. destruct x; cbn [is_dict is_list orb flat_map];
    rewrite IH; reflexivity.
Qed.

(** ** Further properties: [mattermost.post_message] *)

Lemma run_looked_up (cfg : string -> pyval) (passed : pyval)
    (key1 key2 : string) (w : World) :
  (forall key w', answer (config_call key) w' = cfg key) ->
  exists t w',
    run (if negb (truthy passed)
         then py_or (config_get key1) (config_get key2)
         else Ret passed) w
    = (Returned (configured cfg passed key1 key2), t, w') /\
    filter is_query t = [].
Proof.
  intros Hcfg. unfold configured, py_or, config_get.
  unfold config_call in Hcfg.
  destruct (truthy passed); cbn [negb].
  - do 2 eexists. split; reflexivity.
  - step. rewrite Hcfg. destruct (truthy (cfg key1)).
    + do 2 eexists. split; reflexivity.
    + step. rewrite Hcfg. do 2 eexists. split; reflexivity.
Qed.

Lemma run_required (cfg : string -> pyval) (passed : pyval)
    (key1 key2 msg : string) (w : World) :
  (forall key w', answer (config_call key) w' = cfg key) ->
  exists t w',
    run (if negb (truthy passed)
         then prog_bind (py_or (config_get key1) (config_get key2))
                (fun v => if negb (truthy v)
                          then Raise (SaltInvocationError msg) else Ret v)
         else Ret passed) w
    = (if truthy (configured cfg passed key1 key2)
       then Returned (configured cfg passed key1 key2)
       else Raised (SaltInvocationError msg), t, w') /\
    filter is_query t = [].
Proof.
  intros Hcfg. unfold configured, py_or, config_get.
  unfold config_call in Hcfg.
  destruct (truthy passed) eqn:P; cbn [negb].
  - rewrite P. do 2 eexists. split; reflexivity.
  - step. rewrite Hcfg. destruct (truthy (cfg key1)) eqn:K1.
    + step. rewrite K1. do 2 eexists. split; reflexivity.
    + step. rewrite Hcfg.
      destruct (truthy (cfg key2)); do 2 eexists; split; reflexivity.
Qed.

Lemma message_parameters_built (channel username : pyval) (text : string) :
  dict_set "text" (PyStr text)
    (if truthy username
     then dict_set "username" username
            (if truthy channel then dict_set "channel" channel [] else [])
     else if truthy channel then dict_set "channel" channel [] else [])
  = message_parameters channel username text.
Proof.
  unfold message_parameters.
  destruct (truthy channel), (truthy username); reflexivity.
Qed.

(** what a run of [post_message] comes to, on a minion whose configuration
    is [cfg] *)
Lemma post_message_run (cfg : string -> pyval)
    (message channel username api_url hook : pyval) (w : World) :
  (forall key w', answer (config_call key) w' = cfg key) ->
  let url := configured cfg api_url "mattermost.api_url" "mattermost:api_url" in
  let hk := configured cfg hook "mattermost.hook" "mattermost:hook" in
  let un :=
    configured cfg username "mattermost.username" "mattermost:username" in
  let ch := configured cfg channel "mattermost.channel" "mattermost:channel" in
  let q text :=
    MattermostQuery url hk
      ("payload=" ++ json_dumps (message_parameters ch un text)) in
  let r := run (post_message message channel username api_url hook) w in
  exists w',
    outcome_of r
    = (if truthy url then
         if truthy hk then
           match message with
           | PyStr m =>
               Returned
                 (PyBool (truthy (answer (q ("```" ++ m ++ "```")) w')))
           | _ => Raised TypeError
           end
         else Raised (SaltInvocationError "No Mattermost Hook found")
       else Raised (SaltInvocationError "No Mattermost API URL found")) /\
    filter is_query (trace_of r)
    = (if truthy url then
         if truthy hk then
           match message with
           | PyStr m => [q ("```" ++ m ++ "```")]
           | _ => []
           end
         else []
       else []).
Proof.
  intros Hcfg url hk un ch q r. subst r.
  unfold post_message, _get_api_url, _get_hook, _get_username, _get_channel.
  cbn [bind Monad_prog]. rewrite run_bind.
  destruct (run_required cfg api_url "mattermost.api_url" "mattermost:api_url"
              "No Mattermost API URL found" w Hcfg) as (t1 & w1 & E1 & Q1).
  rewrite E1. fold url.
  destruct (truthy url); [| exists w1; split; [reflexivity | exact Q1]].
  rewrite run_bind.
  destruct (run_required cfg hook "mattermost.hook" "mattermost:hook"
              "No Mattermost Hook found" w1 Hcfg) as (t2 & w2 & E2 & Q2).
  rewrite E2. fold hk.
  destruct (truthy hk).
  2:{ exists w2. split; [reflexivity |]. unfold trace_of. cbn [fst snd].
      now rewrite filter_app, Q1, Q2. }
  rewrite run_bind.
  destruct (run_looked_up cfg username "mattermost.username"
              "mattermost:username" w2 Hcfg) as (t3 & w3 & E3 & Q3).
  rewrite E3. fold un. rewrite run_bind.
  destruct (run_looked_up cfg channel "mattermost.channel"
              "mattermost:channel" w3 Hcfg) as (t4 & w4 & E4 & Q4).
  rewrite E4. fold ch. rewrite run_bind.
  assert (L : exists t5 w5,
             run (if negb (truthy message)
                  then host (Log "error" "message is a required option." [])
                  else Ret PyNone) w4
             = (Returned (if negb (truthy message)
                          then answer (Log "error"
                                         "message is a required option." []) w4
                          else PyNone), t5, w5)
             /\ filter is_query t5 = []).
  { destruct (truthy message); cbn [negb].
    - do 2 eexists. split; reflexivity.
    - rewrite run_host. do 2 eexists. split; reflexivity. }
  destruct L as (t5 & w5 & E5 & Q5). rewrite E5.
  destruct message as [| b | z | m | l | d]; cbn [lift str_add prog_bind run];
    try (exists w5; split; [reflexivity |]; unfold trace_of; cbn [fst snd];
         now rewrite !filter_app, Q1, Q2, Q3, Q4, Q5).
  rewrite message_parameters_built. step.
  eexists. split; [reflexivity |]. unfold trace_of. cbn [fst snd].
  rewrite !filter_app, Q1, Q2, Q3, Q4, Q5. reflexivity.
Qed.

(** X18.  [post_message] with a message, an API URL and a hook (passed or
    configured) sends one query whose object holds, in this order, the
    channel when one is passed or configured, the user name when one is
    passed or configured, and the text. *)
Theorem post_message_sends_set_options (cfg : string -> pyval)
    (message : string) (channel username api_url hook : pyval) (w : World) :
  (forall key w', answer (config_call key) w' = cfg key) ->
  truthy (configured cfg api_url "mattermost.api_url" "mattermost:api_url")
  = true ->
  truthy (configured cfg hook "mattermost.hook" "mattermost:hook") = true ->
  let q :=
    MattermostQuery
      (configured cfg api_url "mattermost.api_url" "mattermost:api_url")
      (configured cfg hook "mattermost.hook" "mattermost:hook")
      ("payload="
         ++ json_dumps
              (message_parameters
                 (configured cfg channel "mattermost.channel"
                    "mattermost:channel")
                 (configured cfg username "mattermost.username"
                    "mattermost:username")
                 ("```" ++ message ++ "```")))
  in
  filter is_query
    (trace_of (run (post_message (PyStr message) channel username api_url
                      hook) w))
  = [q].
Proof.
  intros Hcfg Hu Hh q. subst q.
  destruct (post_message_run cfg (PyStr message) channel username api_url
              hook w Hcfg) as (w' & _ & F).
  cbv zeta in F. rewrite Hu, Hh in F. exact F.
Qed.

(** X19.  [post_message] looks an option up in the configuration only when
    it is not passed: with channel, user name, API URL and hook all passed,
    no [config.get] call is made, whatever the message is. *)
Theorem post_message_passed_options_skip_config
    (message channel username api_url hook : pyval) (w : World) :
  truthy channel = true -> truthy username = true ->
  truthy api_url = true -> truthy hook = true ->
  existsb (is_call_to "config.get")
    (trace_of (run (post_message message channel username api_url hook) w))
  = false.
Proof.
  intros C N U H. unfold post_message. rewrite C, N, U, H. cbn [negb].
  cbn [bind Monad_prog prog_bind].
  destruct (truthy message); cbn [negb]; step;
    destruct message; cbn [lift str_add prog_bind run]; step; reflexivity.
Qed.

(** X20.  [post_message] checks the API URL before the hook: when no API
    URL is passed or configured it raises [No Mattermost API URL found],
    and when there is one but no hook it raises [No Mattermost Hook found];
    in both cases no query is sent. *)
Theorem post_message_requires_url_then_hook (cfg : string -> pyval)
    (message channel username api_url hook : pyval) (w : World) :
  (forall key w', answer (config_call key) w' = cfg key) ->
  let r := run (post_message message channel username api_url hook) w in
  let url := configured cfg api_url "mattermost.api_url" "mattermost:api_url" in
  let hk := configured cfg hook "mattermost.hook" "mattermost:hook" in
  (truthy url = false ->
   outcome_of r = Raised (SaltInvocationError "No Mattermost API URL found")
   /\ filter is_query (trace_of r) = []) /\
  (truthy url = true -> truthy hk = false ->
   outcome_of r = Raised (SaltInvocationError "No Mattermost Hook found")
   /\ filter is_query (trace_of r) = []).
Proof.
  intros Hcfg r url hk.
  destruct (post_message_run cfg message channel username api_url hook w Hcfg)
    as (w' & O & F).
  cbv zeta in O, F. fold r url hk in O, F.
  split.
  - intros Hu. rewrite Hu in O, F. auto.
  - intros Hu Hh. rewrite Hu, Hh in O, F. auto.
Qed.

(** X21.  [post_message] with a message that is not a string ([None], a
    number, a list) raises [TypeError] when it builds the text, after the
    options have been resolved and before any query is sent. *)
Theorem post_message_rejects_non_string (cfg : string -> pyval)
    (message channel username api_url hook : pyval) (w : World) :
  (forall key w', answer (config_call key) w' = cfg key) ->
  truthy (configured cfg api_url "mattermost.api_url" "mattermost:api_url")
  = true ->
  truthy (configured cfg hook "mattermost.hook" "mattermost:hook") = true ->
  is_str message = false ->
  let r := run (post_message message channel username api_url hook) w in
  outcome_of r = Raised TypeError /\
  filter is_query (trace_of r) = [].
Proof.
  intros Hcfg Hu Hh S r.
  destruct (post_message_run cfg message channel username api_url hook w Hcfg)
    as (w' & O & F).
  cbv zeta in O, F. fold r in O, F. rewrite Hu, Hh in O, F.
  destruct message; try discriminate; auto.
Qed.

End Modules.

Arguments run {World} handle {A} p w.
Arguments answer {World} handle c w.
Arguments after {World} handle c w.
Arguments outcome_of {World A} r.
Arguments trace_of {World A} r.
Arguments world_of {World A} r.
Arguments in_state {World} handle f w.
Arguments pure_reads {World} handle.
Arguments needs_change {World} handle f w.
Arguments guard_passes {World} handle h f w.

(** ** The theorems at concrete hosts *)

Lemma in_state_reports_no_changes_witness :
  let f := Present "yolo" (PyStr "NONE") PyNone [] in
  let r := run (static database_exists) (call_state plain_repr applying f) tt in
  in_state (static database_exists) f tt = true /\
  pure_reads (static database_exists) /\
  no_change (outcome_of r) /\
  applied (trace_of r) = false /\
  no_change
    (outcome_of
       (run (static database_exists) (call_state plain_repr applying f)
          (world_of r))).
Proof.
  intros f r.
  assert (P : pure_reads (static database_exists)) by (intros c w _; reflexivity).
  destruct (in_state_reports_no_changes plain_repr unit
              (static database_exists) applying f tt eq_refl)
    as (A & B & C).
  destruct (C P) as (_ & D & _).
  repeat split; assumption.
Defined.

Lemma dry_run_reports_pending_witness :
  let f := Formatted "/dev/sdb1" "ext4" (PyBool false) [] in
  let r := run (static blank_device) (call_state plain_repr dry_run f) tt in
  truthy (opts_test dry_run) = true /\
  needs_change (static blank_device) f tt = true /\
  guard_passes (static blank_device) dry_run f tt = true /\
  applied (trace_of r) = false /\
  pending (outcome_of r).
Proof.
  intros f r.
  destruct (dry_run_reports_pending plain_repr unit (static blank_device)
              dry_run f tt eq_refl) as (A & B & _).
  split; [reflexivity |]. split; [reflexivity |]. split; [reflexivity |].
  split; [exact A | exact (B eq_refl eq_refl)].
Defined.

(** C2, as stated, fails: in dry-run mode, on an [xfs] device that is to
    carry [ext4] where [mkfs.ext4] is not installed, [formatted] returns
    [result = False], not [None]. *)
Lemma dry_run_formatted_invalid_fs_type :
  let f := Formatted "/dev/sdb1" "ext4" (PyBool false) [] in
  truthy (opts_test dry_run) = true /\
  needs_change (static xfs_without_mkfs) f tt = true /\
  run (static xfs_without_mkfs) (call_state plain_repr dry_run f) tt
  = (Returned (mk_ret "/dev/sdb1" (Some false) "Invalid fs_type: ext4" []),
     [OsPathExists "/dev/sdb1"; blkid_call "/dev/sdb1"; Which "mkfs.ext4"],
     tt).
Proof. split; [reflexivity |]. split; reflexivity. Qed.

Lemma tuned_raises_when_tune_fails_witness :
  let kwargs := [("read-only", PyBool true)] in
  let w := [PyDict [("getro", PyStr "0")]; PyBool false] in
  salt_file_is_blkdev applying = true /\
  truthy (opts_test applying) = false /\
  existsb (fun kv => recognised (fst kv)) kwargs = true /\
  truthy (answer scripted (tune_call "/dev/sda" kwargs)
            (after scripted (dump_call "/dev/sda") w)) = false /\
  exists e,
    outcome_of (run scripted (tuned plain_repr applying "/dev/sda" kwargs) w)
    = Raised e.
Proof.
  intros kwargs w. repeat split.
  apply (tuned_raises_when_tune_fails plain_repr (list pyval) scripted
           applying "/dev/sda" kwargs w); reflexivity.
Defined.

(** the same call, evaluated: the exception is a [TypeError] and
    [disk.tune] has been called *)
Example tuned_failed_tune_evaluated :
  run scripted (tuned plain_repr applying "/dev/sda" [("read-only", PyBool true)])
    [PyDict [("getro", PyStr "0")]; PyBool false]
  = (Raised TypeError,
     [dump_call "/dev/sda"; tune_call "/dev/sda" [("read-only", PyBool true)]],
     []).
Proof. reflexivity. Qed.

Lemma tuned_compares_reports_then_normalizes_witness :
  let kwargs := [("read-only", PyBool false)] in
  let before := PyDict [("getro", PyStr "0")] in
  let after_tune := PyDict [("getro", PyStr "1")] in
  NoDup (map fst kwargs) /\
  assoc "read-only" kwarg_map = Some "getro" /\
  covers before kwargs = true /\
  covers after_tune kwargs = true /\
  is_flag (PyStr "0") = true /\ is_flag (PyStr "1") = true /\
  py_eq (PyStr "0") (PyStr "1") = Bool.eqb (flag (PyStr "0")) (flag (PyStr "1")) /\
  exists r,
    outcome_of (run scripted (tuned plain_repr applying "/dev/sda" kwargs)
                  [before; after_tune]) = Returned r /\
    dict_get "read-only" (changes r)
    = Some (PyStr "Changed from False to True").
Proof.
  intros kwargs before after_tune.
  assert (ND : NoDup (map fst kwargs)).
  { repeat constructor; simpl; intuition discriminate. }
  assert (I : In ("read-only", PyBool false) kwargs) by (simpl; auto).
  destruct (tuned_compares_reports_then_normalizes plain_repr (list pyval)
              scripted applying "/dev/sda" kwargs [before; after_tune]
              "read-only" "getro" false (PyStr "0") (PyStr "1")
              eq_refl eq_refl ND I eq_refl eq_refl eq_refl eq_refl eq_refl)
    as (r & O & E & F).
  split; [exact ND |]. do 5 (split; [reflexivity |]).
  split; [exact (F eq_refl eq_refl) |].
  exists r. split; [exact O | exact E].
Defined.

(** C4, as stated, fails: the declared value is not compared.  With
    [read-only] declared [True] on a device whose flag is ["0"] before and
    after the tune call, the declared and the current value differ once
    normalised, and [tuned] reports no change; with [read-only] declared
    [False] on a device whose flag goes from ["0"] to ["1"], the declared
    and the current value agree, and [tuned] reports a change. *)
Lemma tuned_does_not_compare_the_declared_value :
  let off := PyDict [("getro", PyStr "0")] in
  let on := PyDict [("getro", PyStr "1")] in
  claimed_change (PyBool true) (PyStr "0") = true /\
  outcome_of (run scripted
                (tuned plain_repr applying "/dev/sda"
                   [("read-only", PyBool true)]) [off; off])
  = Returned (mk_ret "/dev/sda" (Some true)
                "Block device /dev/sda already in correct state" []) /\
  claimed_change (PyBool false) (PyStr "0") = false /\
  outcome_of (run scripted
                (tuned plain_repr applying "/dev/sda"
                   [("read-only", PyBool false)]) [off; on])
  = Returned (mk_ret "/dev/sda" (Some true)
                "Block device /dev/sda successfully modified "
                [("read-only", PyStr "Changed from False to True")]).
Proof.
  split; [reflexivity |]. split; [reflexivity |]. split; reflexivity.
Qed.

Lemma read_write_reports_negated_read_only_witness :
  let kwargs := [("read-ahead", PyInt 1024); ("read-write", PyBool true)] in
  let before := PyDict [("getro", PyStr "1"); ("getra", PyStr "256")] in
  let after_tune := PyDict [("getra", PyStr "1024"); ("getro", PyStr "0")] in
  NoDup (map fst kwargs) /\
  In ("read-write", PyBool true) kwargs /\
  covers before kwargs = true /\
  covers after_tune kwargs = true /\
  py_eq (PyStr "1") (PyStr "0") = false /\
  exists r,
    outcome_of (run scripted (tuned plain_repr applying "/dev/sda" kwargs)
                  [before; after_tune]) = Returned r /\
    dict_get "read-write" (changes r)
    = Some (PyStr "Changed from False to True").
Proof.
  intros kwargs before after_tune.
  assert (ND : NoDup (map fst kwargs)).
  { repeat constructor; simpl; intuition discriminate. }
  assert (I : In ("read-write", PyBool true) kwargs) by (simpl; auto).
  destruct (read_write_reports_negated_read_only plain_repr (list pyval)
              scripted applying "/dev/sda" kwargs [before; after_tune] true
              (PyStr "1") (PyStr "0") eq_refl eq_refl ND I eq_refl eq_refl
              eq_refl eq_refl) as (r & O & _ & _ & _ & C).
  repeat split; try assumption.
  exists r. split; [exact O | exact (C eq_refl)].
Defined.

Lemma post_message_without_message_is_sent_witness :
  let r := run (static no_database)
             (post_message plain_json (PyStr "") PyNone PyNone
                (PyStr "https://example.com") (PyStr "peWcBiMOS9HrZG15")) tt in
  truthy (PyStr "https://example.com") = true /\
  truthy (PyStr "peWcBiMOS9HrZG15") = true /\
  (exists v, outcome_of r = Returned v) /\
  In (Log "error" "message is a required option." []) (trace_of r) /\
  existsb is_query (trace_of r) = true.
Proof.
  intros r. split; [reflexivity |]. split; [reflexivity |].
  apply (post_message_without_message_is_sent plain_json unit
           (static no_database)); reflexivity.
Defined.

(** the same call, evaluated *)
Example post_message_without_message_evaluated :
  run (static no_database)
    (post_message plain_json (PyStr "") PyNone PyNone
       (PyStr "https://example.com") (PyStr "peWcBiMOS9HrZG15")) tt
  = (Returned (PyBool false),
     [config_call "mattermost.username"; config_call "mattermost:username";
      config_call "mattermost.channel"; config_call "mattermost:channel";
      Log "error" "message is a required option." [];
      Log "debug" "Parameters: %s" [PyDict [("text", PyStr "``````")]];
      MattermostQuery (PyStr "https://example.com") (PyStr "peWcBiMOS9HrZG15")
        "payload={text}"],
     tt).
Proof. reflexivity. Qed.

Lemma post_message_text_only_witness :
  let r := run (static minion_config)
             (post_message plain_json (PyStr "Build is done") PyNone PyNone
                PyNone PyNone) tt in
  (forall key w', answer (static minion_config) (config_call key) w'
                  = hook_and_url key) /\
  filter is_query (trace_of r)
  = [MattermostQuery (PyStr "https://example.com") (PyStr "peWcBiMOS9HrZG15")
       ("payload=" ++ plain_json [("text", PyStr "```Build is done```")])] /\
  outcome_of r = Returned (PyBool true).
Proof.
  intros r.
  assert (C : forall key w', answer (static minion_config) (config_call key) w'
                             = hook_and_url key) by reflexivity.
  destruct (post_message_text_only plain_json unit (static minion_config)
              hook_and_url "Build is done" PyNone PyNone PyNone PyNone tt
              C eq_refl eq_refl eq_refl eq_refl) as (Q & w' & O).
  repeat split; assumption.
Defined.

Lemma _normalize_options_by_shape_witness :
  forallb is_str [PyStr "READ_ONLY"; PyStr "AUTO_CLOSE ON"] = true /\
  _normalize_options plain_repr (PyList [PyStr "READ_ONLY"; PyStr "AUTO_CLOSE ON"])
  = [PyStr "READ_ONLY"; PyStr "AUTO_CLOSE ON"] /\
  forallb is_dict
    [PyDict [("RECOVERY", PyStr "SIMPLE")]; PyDict [("MAXSIZE", PyInt 5)]] = true /\
  _normalize_options plain_repr
    (PyList [PyDict [("RECOVERY", PyStr "SIMPLE")]; PyDict [("MAXSIZE", PyInt 5)]])
  = [PyStr "RECOVERY=SIMPLE"; PyStr "MAXSIZE=5"] /\
  _normalize_options plain_repr PyNone = [] /\
  _normalize_options plain_repr (PyList [PyInt 5; PyStr "a"]) = [] /\
  forallb is_str
    (_normalize_options plain_repr (PyDict [("RECOVERY", PyStr "SIMPLE")])) = true.
Proof.
  destruct (_normalize_options_by_shape plain_repr unit (static no_database))
    as (_ & S & D & N & O & _ & A & _).
  split; [reflexivity |].
  split; [apply S; reflexivity |].
  split; [reflexivity |].
  split; [rewrite D by reflexivity; reflexivity |].
  split; [apply N; reflexivity |].
  split; [apply O; reflexivity |].
  apply A; reflexivity.
Defined.

(** C10, as stated, fails: a list that starts with a string is returned
    as it is, here with the number it holds. *)
Lemma _normalize_options_keeps_a_number :
  _normalize_options plain_repr (PyList [PyStr "READ_ONLY"; PyInt 5])
  = [PyStr "READ_ONLY"; PyInt 5] /\
  forallb is_str
    (_normalize_options plain_repr (PyList [PyStr "READ_ONLY"; PyInt 5]))
  = false.
Proof. split; reflexivity. Qed.

(** ** The further properties at concrete hosts *)

Lemma set_hostname_reports_modified_witness :
  let w :=
    [PyDict [("outConfig",
              PyDict [("mgmtIf",
                       PyList [PyDict [("status", PyStr "modified")]])])]] in
  truthy (PyStr "foobar") = true /\
  outcome_of (run scripted (set_hostname plain_repr (PyStr "foobar")) w)
  = Returned (PyBool true).
Proof.
  intros w. split; [reflexivity |].
  rewrite (set_hostname_reports_modified plain_repr _ scripted
             (PyStr "foobar") w eq_refl).
  reflexivity.
Defined.


Lemma mount_share_needs_both_credentials_witness :
  truthy (PyStr "bob") && truthy PyNone = false /\
  mount_share plain_repr (PyStr "WIN7") (PyStr "10.0.0.1:/nfs")
    (PyStr "sl1huu.iso") (PyStr "nfs") (PyStr "bob") PyNone
  = mount_share plain_repr (PyStr "WIN7") (PyStr "10.0.0.1:/nfs")
      (PyStr "sl1huu.iso") (PyStr "nfs") PyNone PyNone /\
  truthy (PyStr "bob") && truthy (PyStr "secret") = true /\
  exists pre post,
    trace_of (run (static no_database)
                (mount_share plain_repr (PyStr "WIN7") (PyStr "10.0.0.1:/nfs")
                   (PyStr "sl1huu.iso") (PyStr "nfs") (PyStr "bob")
                   (PyStr "secret")) tt)
    = [set_config_modify "sys/svc-ext/vmedia-svc/vmmap-WIN7"
         (pre ++ " mountOptions='username=bob,password=secret'" ++ post)].
Proof.
  split; [reflexivity |].
  split.
  { apply (proj1 (mount_share_needs_both_credentials plain_repr unit
                    (static no_database) (PyStr "WIN7") (PyStr "10.0.0.1:/nfs")
                    (PyStr "sl1huu.iso") (PyStr "nfs") (PyStr "bob") PyNone tt)).
    reflexivity. }
  split; [reflexivity |].
  destruct (proj2 (mount_share_needs_both_credentials plain_repr unit
                     (static no_database) (PyStr "WIN7")
                     (PyStr "10.0.0.1:/nfs") (PyStr "sl1huu.iso") (PyStr "nfs")
                     (PyStr "bob") (PyStr "secret") tt) eq_refl eq_refl)
    as (pre & post & E).
  exists pre, post. cbv zeta in E. rewrite E. reflexivity.
Defined.

Lemma cimc_virtual_loads_iff_witness :
  cimc__virtual__ true
    (PyDict [("proxy", PyDict [("proxytype", PyStr "cimc")])])
  = inr (inl "cimc") /\
  cimc__virtual__ true (PyDict [("proxy", PyNone)]) = inl TypeError /\
  cimc__virtual__ false PyNone = cimc__virtual__ false (PyDict []).
Proof.
  split.
  { apply (proj1 (cimc_virtual_loads_iff true _)).
    split; [reflexivity |].
    exists (PyDict [("proxytype", PyStr "cimc")]), (PyStr "cimc").
    repeat split. }
  split.
  { apply (proj1 (proj2 (cimc_virtual_loads_iff true _)) TypeError).
    split; [reflexivity |]. split; [reflexivity |]. right.
    exists PyNone. split; [reflexivity |]. split; [reflexivity |].
    exists TypeError. reflexivity. }
  apply (proj2 (proj2 (cimc_virtual_loads_iff false PyNone))). reflexivity.
Defined.

Lemma formatted_gives_up_after_ten_polls_witness :
  let r := run (static blank_device)
             (formatted applying "/dev/sdb1" "ext4" (PyBool false) [])
             tt in
  truthy (opts_test applying) = false /\
  "ext4" <> "" /\
  truthy (answer (static blank_device) (OsPathExists "/dev/sdb1") tt) = true /\
  outcome_of r = Returned (poll_failed "/dev/sdb1") /\
  count is_sleep (trace_of r) = 10%nat /\
  count is_blkid (trace_of r) = 11%nat /\
  count is_apply (trace_of r) = 1%nat.
Proof.
  intros r. split; [reflexivity |]. split; [discriminate |].
  split; [reflexivity |].
  apply (formatted_gives_up_after_ten_polls unit (static blank_device)
           applying "/dev/sdb1" "ext4" (PyBool false) [] tt);
    try reflexivity; try discriminate; intros w'; reflexivity.
Defined.

Lemma tuned_unchanged_reports_correct_state_witness :
  let kwargs := [("read-only", PyBool true)] in
  let report := PyDict [("getro", PyStr "0")] in
  covers report kwargs = true /\
  unchanged report report kwargs = true /\
  outcome_of (run scripted (tuned plain_repr applying "/dev/sda" kwargs)
                [report; report])
  = Returned (mk_ret "/dev/sda" (Some true)
                "Block device /dev/sda already in correct state" []).
Proof.
  intros kwargs report. split; [reflexivity |]. split; [reflexivity |].
  apply (tuned_unchanged_reports_correct_state plain_repr (list pyval)
           scripted applying "/dev/sda" kwargs [report; report]);
    reflexivity.
Defined.

Lemma tuned_changes_are_declared_options_witness :
  let kwargs := [("read-only", PyBool true); ("bogus", PyInt 1)] in
  exists r v,
    outcome_of (run scripted (tuned plain_repr applying "/dev/sda" kwargs)
                  [PyDict [("getro", PyStr "0")]; PyDict [("getro", PyStr "1")]])
    = Returned r /\
    dict_get "read-only" (changes r) = Some v /\
    dict_get "bogus" (changes r) = None /\
    recognised "read-only" = true /\ In "read-only" (map fst kwargs) /\
    exists old new, v = PyStr ("Changed from " ++ old ++ " to " ++ new).
Proof.
  intros kwargs. do 2 eexists.
  split; [reflexivity |]. split; [reflexivity |]. split; [reflexivity |].
  apply (tuned_changes_are_declared_options plain_repr (list pyval) scripted
           applying "/dev/sda" kwargs
           [PyDict [("getro", PyStr "0")]; PyDict [("getro", PyStr "1")]]
           _ eq_refl "read-only" _ eq_refl).
Defined.

Lemma read_write_not_boolean_reports_false_witness :
  let kwargs := [("read-write", PyStr "True")] in
  let before := PyDict [("getro", PyStr "1")] in
  let after_tune := PyDict [("getro", PyStr "0")] in
  NoDup (map fst kwargs) /\
  is_bool (PyStr "True") = false /\
  truthy (PyStr "1") = true /\ truthy (PyStr "0") = true /\
  py_eq (PyStr "1") (PyStr "0") = false /\
  exists r,
    outcome_of (run scripted (tuned plain_repr applying "/dev/sda" kwargs)
                  [before; after_tune]) = Returned r /\
    dict_get "read-write" (changes r)
    = Some (PyStr "Changed from False to False").
Proof.
  intros kwargs before after_tune.
  assert (ND : NoDup (map fst kwargs)).
  { repeat constructor; simpl; intuition discriminate. }
  assert (I : In ("read-write", PyStr "True") kwargs) by (simpl; auto).
  split; [exact ND |]. repeat (split; [reflexivity |]).
  apply (read_write_not_boolean_reports_false plain_repr (list pyval) scripted
           applying "/dev/sda" kwargs [before; after_tune] (PyStr "True")
           (PyStr "1") (PyStr "0") eq_refl eq_refl ND I);
    reflexivity.
Defined.

Lemma tuned_reports_values_as_they_are_witness :
  let kwargs := [("read-ahead", PyInt 1024)] in
  let before := PyDict [("getra", PyStr "256")] in
  let after_tune := PyDict [("getra", PyStr "1024")] in
  NoDup (map fst kwargs) /\
  assoc "read-ahead" kwarg_map = Some "getra" /\
  "read-ahead" <> "read-write" /\
  exists r,
    outcome_of (run scripted (tuned plain_repr applying "/dev/sda" kwargs)
                  [before; after_tune]) = Returned r /\
    dict_get "read-ahead" (changes r)
    = Some (PyStr "Changed from 256 to 1024").
Proof.
  intros kwargs before after_tune.
  assert (ND : NoDup (map fst kwargs)).
  { repeat constructor; simpl; intuition discriminate. }
  assert (I : In ("read-ahead", PyInt 1024) kwargs) by (simpl; auto).
  assert (K : "read-ahead" <> "read-write") by discriminate.
  split; [exact ND |]. split; [reflexivity |]. split; [exact K |].
  apply (tuned_reports_values_as_they_are plain_repr (list pyval) scripted
           applying "/dev/sda" kwargs [before; after_tune] "read-ahead" "getra"
           (PyInt 1024) (PyStr "256") (PyStr "1024") eq_refl eq_refl ND I
           eq_refl K eq_refl eq_refl eq_refl eq_refl eq_refl).
Defined.

Lemma present_succeeds_only_on_true_witness :
  let w := [PyBool false; PyStr "Could not create the database: denied"] in
  dict_has "new_database_options" [] = false /\
  exists r,
    outcome_of (run scripted
                  (present plain_repr applying "yolo" (PyStr "NONE") PyNone [])
                  w) = Returned r /\
    r = mk_ret "yolo" (Some false)
          "Database yolo failed to be created: Could not create the database: denied"
          [].
Proof.
  intros w. split; [reflexivity |].
  destruct (present_succeeds_only_on_true plain_repr (list pyval) scripted
              applying "yolo" (PyStr "NONE") PyNone [] w
              eq_refl eq_refl eq_refl) as (r & E & _ & _ & F).
  exists r. split; [now rewrite E |].
  rewrite F; [reflexivity | discriminate].
Defined.

Lemma absent_succeeds_on_any_true_answer_witness :
  let w := [PyBool true; PyStr "Could not find the database"] in
  truthy (PyBool true) = true /\
  outcome_of (run scripted (absent applying "yolo" []) w)
  = Returned (mk_ret "yolo" (Some true) "Database yolo has been removed"
                [("yolo", PyStr "Absent")]).
Proof.
  intros w. split; [reflexivity |].
  rewrite (absent_succeeds_on_any_true_answer (list pyval) scripted
             applying "yolo" [] w eq_refl eq_refl).
  reflexivity.
Defined.

Lemma post_message_sends_set_options_witness :
  (forall key w', answer (static minion_config) (config_call key) w'
                  = hook_and_url key) /\
  filter is_query
    (trace_of (run (static minion_config)
                 (post_message plain_json (PyStr "Build is done")
                    (PyStr "town-square") PyNone PyNone PyNone) tt))
  = [MattermostQuery (PyStr "https://example.com") (PyStr "peWcBiMOS9HrZG15")
       ("payload="
          ++ plain_json [("channel", PyStr "town-square");
                         ("text", PyStr "```Build is done```")])].
Proof.
  assert (C : forall key w', answer (static minion_config) (config_call key) w'
                             = hook_and_url key) by reflexivity.
  split; [exact C |].
  apply (post_message_sends_set_options plain_json unit (static minion_config)
           hook_and_url "Build is done" (PyStr "town-square") PyNone PyNone
           PyNone tt C eq_refl eq_refl).
Defined.

Lemma post_message_passed_options_skip_config_witness :
  truthy (PyStr "town-square") = true /\ truthy (PyStr "salt") = true /\
  truthy (PyStr "https://example.com") = true /\
  truthy (PyStr "peWcBiMOS9HrZG15") = true /\
  existsb (is_call_to "config.get")
    (trace_of (run (static minion_config)
                 (post_message plain_json (PyStr "Build is done")
                    (PyStr "town-square") (PyStr "salt")
                    (PyStr "https://example.com") (PyStr "peWcBiMOS9HrZG15"))
                 tt))
  = false.
Proof.
  repeat (split; [reflexivity |]).
  apply (post_message_passed_options_skip_config plain_json unit
           (static minion_config)); reflexivity.
Defined.

Lemma post_message_requires_url_then_hook_witness :
  (forall key w', answer (static no_database) (config_call key) w' = PyNone) /\
  outcome_of (run (static no_database)
                (post_message plain_json (PyStr "Build is done") PyNone PyNone
                   PyNone (PyStr "peWcBiMOS9HrZG15")) tt)
  = Raised (SaltInvocationError "No Mattermost API URL found") /\
  outcome_of (run (static no_database)
                (post_message plain_json (PyStr "Build is done") PyNone PyNone
                   (PyStr "https://example.com") PyNone) tt)
  = Raised (SaltInvocationError "No Mattermost Hook found").
Proof.
  assert (C : forall key w', answer (static no_database) (config_call key) w'
                             = (fun _ => PyNone) key) by reflexivity.
  split; [exact C |]. split.
  - apply (proj1 (post_message_requires_url_then_hook plain_json unit
                    (static no_database) (fun _ => PyNone)
                    (PyStr "Build is done") PyNone PyNone PyNone
                    (PyStr "peWcBiMOS9HrZG15") tt C)). reflexivity.
  - apply (proj2 (post_message_requires_url_then_hook plain_json unit
                    (static no_database) (fun _ => PyNone)
                    (PyStr "Build is done") PyNone PyNone
                    (PyStr "https://example.com") PyNone tt C));
      reflexivity.
Defined.

Lemma post_message_rejects_non_string_witness :
  let r := run (static minion_config)
             (post_message plain_json (PyInt 5) PyNone PyNone PyNone PyNone)
             tt in
  (forall key w', answer (static minion_config) (config_call key) w'
                  = hook_and_url key) /\
  is_str (PyInt 5) = false /\
  outcome_of r = Raised TypeError /\
  filter is_query (trace_of r) = [].
Proof.
  intros r.
  assert (C : forall key w', answer (static minion_config) (config_call key) w'
                             = hook_and_url key) by reflexivity.
  split; [exact C |]. split; [reflexivity |].
  apply (post_message_rejects_non_string plain_json unit (static minion_config)
           hook_and_url (PyInt 5) PyNone PyNone PyNone PyNone tt C);
    reflexivity.
Defined.
